(** * Webfleet GPS API server: reconciliation, snapshot cache and query layer

    A shallow embedding of [webfleet_server.py]: the JSON values the scraper
    intercepts, [WebfleetScraper.get_positions], the [DataCache] object and
    the request handlers of [APIHandler].

    Exceptions are results of an error monad; the list objects the cache
    and the handlers share live in a store.  Text is a sequence of opaque
    characters, and the JSON encoding of a response body, the browser session
    and the locking of the cache are not modelled. *)

From Stdlib Require Import ZArith QArith Qabs Qround Lqa String Ascii List Bool Lia.
From stdpp Require Import base option list gmap strings fin_maps.
Import ListNotations.

Local Open Scope Z_scope.
Local Open Scope string_scope.
Local Set Warnings "-register-all".

(** ** Python values *)

(** What [response.json()] can produce.  A [float] is idealised as an exact
    rational: the rounding of the binary format is outside this model (its
    overflow is kept, see [py_div100]).  A [dict] decoded from JSON has text
    keys.  The values [NaN] and [Infinity], which [json.loads] accepts beyond
    the JSON grammar, are not represented: a number is a finite one
    throughout. *)
Inductive pyval : Type :=
| PNone
| PBool (b : bool)
| PInt (z : Z)
| PFloat (q : Q)
| PStr (s : string)
| PList (l : list pyval)
| PDict (d : gmap string pyval).

(** The exceptions the modelled code can raise. *)
Inductive pyexn : Type :=
| KeyError
| TypeError
| AttributeError
| OverflowError
| ValueError.

Inductive result (A : Type) : Type :=
| Ok (a : A)
| Raise (e : pyexn).
Arguments Ok {A} a.
Arguments Raise {A} e.

Definition rbind {A B} (m : result A) (k : A -> result B) : result B :=
  match m with
  | Ok a => k a
  | Raise e => Raise e
  end.

Notation "'let*' x ':=' m 'in' k" := (rbind m (fun x => k))
  (at level 10, x name, m at level 100, k at level 200).


(** ** Library functions the source calls

    [str.strip], [str.upper], [urllib.parse.urlparse] and
    [urllib.parse.parse_qs] are not part of the repository: they are taken as
    an interface.  [query_first path name] stands for
    [parse_qs(urlparse(path).query).get(name, [None])[0]].  [urlparse] raises
    [ValueError] on a target it refuses: [url_ok] tells whether it accepts,
    and the path of a refused target reads as the empty text.
    [float_round] is the rounding of a rational to the nearest [float], as
    true division performs it. *)
Class PyLib : Type := {
  str_strip : string -> string;
  str_upper : string -> string;
  urlparse_path : string -> string;
  query_first : string -> string -> option string;
  url_ok : string -> bool;
  float_round : Q -> Q;
  urlparse_path_refused : forall target, url_ok target = false -> urlparse_path target = ""
}.

(** ** Primitive operations on values *)

(** [bool(v)]. *)
Definition truthy (v : pyval) : bool :=
  match v with
  | PNone => false
  | PBool b => b
  | PInt z => negb (Z.eqb z 0)
  | PFloat q => negb (Qeq_bool q 0)
  | PStr s => negb (String.eqb s "")
  | PList l => match l with [] => false | _ :: _ => true end
  | PDict d => match map_to_list d with [] => false | _ :: _ => true end
  end.

(** [a or b] on values already computed. *)
Definition py_or (a b : pyval) : pyval := if truthy a then a else b.

(** [isinstance(v, dict)]. *)
Definition is_dict (v : pyval) : bool :=
  match v with PDict _ => true | _ => false end.

(** [v[k]] for a text key [k]. *)
Definition py_getitem (v : pyval) (k : string) : result pyval :=
  match v with
  | PDict d => match d !! k with Some x => Ok x | None => Raise KeyError end
  | _ => Raise TypeError
  end.

(** [v.get(k, dflt)]: only a [dict] has the method. *)
Definition py_get (v : pyval) (k : string) (dflt : pyval) : result pyval :=
  match v with
  | PDict d => Ok (default dflt (d !! k))
  | _ => Raise AttributeError
  end.

(** [v.strip()]: only text has the method. *)
Definition py_strip `{PyLib} (v : pyval) : result string :=
  match v with
  | PStr s => Ok (str_strip s)
  | _ => Raise AttributeError
  end.

(** [iter(v)], as a [for] loop or a comprehension consumes it.  A [dict]
    yields its keys; Python yields them in insertion order, which the map does
    not record (every loop below fails on the first key, whatever it is). *)
Definition py_iter (v : pyval) : result (list pyval) :=
  match v with
  | PList l => Ok l
  | PDict d => Ok (PStr <$> (map_to_list d).*1)
  | PStr s => Ok ((fun c => PStr (String c EmptyString)) <$> list_ascii_of_string s)
  | _ => Raise TypeError
  end.

(** The value of a number, [bool] being a subtype of [int]. *)
Definition num_of (v : pyval) : option Q :=
  match v with
  | PBool b => Some (inject_Z (Z.b2z b))
  | PInt z => Some (inject_Z z)
  | PFloat q => Some q
  | _ => None
  end.

(** The largest magnitude that still rounds to a finite [float]. *)
Definition float_limit : Q := inject_Z (2 ^ 1024 - 2 ^ 970).

(** [v / 100]: true division, the exact quotient rounded to a [float].  An
    [int] whose quotient does not fit a [float] raises; a [float] operand
    never does. *)
Definition py_div100 `{PyLib} (v : pyval) : result Q :=
  match v with
  | PInt z =>
      let q := (inject_Z z / 100)%Q in
      if Qle_bool float_limit (Qabs q) then Raise OverflowError
      else Ok (float_round q)
  | PBool b => Ok (float_round (inject_Z (Z.b2z b) / 100))
  | PFloat q => Ok (float_round (q / 100))
  | _ => Raise TypeError
  end.

(** [a == b]; the lists and dicts of a payload are compared only against
    text and numbers in this program, where the answer is [False]. *)
Definition py_eqb (a b : pyval) : bool :=
  match a, b with
  | PNone, PNone => true
  | PStr s, PStr t => String.eqb s t
  | _, _ =>
      match num_of a, num_of b with
      | Some x, Some y => Qeq_bool x y
      | _, _ => false
      end
  end.

(** [hash(v)] succeeds. *)
Definition hashable (v : pyval) : bool :=
  match v with
  | PList _ | PDict _ => false
  | _ => true
  end.

(** ** The telemetry index: a [dict] keyed by arbitrary hashable values *)

Abbreviation pydict := (list (pyval * pyval)).

(** [m[k] = v]: an existing key keeps its place and takes the new value. *)
Fixpoint dict_set (m : pydict) (k v : pyval) : pydict :=
  match m with
  | [] => [(k, v)]
  | (k', v') :: m' =>
      if py_eqb k' k then (k', v) :: m' else (k', v') :: dict_set m' k v
  end.

Fixpoint dict_find (m : pydict) (k : pyval) : option pyval :=
  match m with
  | [] => None
  | (k', v') :: m' => if py_eqb k' k then Some v' else dict_find m' k
  end.

(** [m.get(k, dflt)]: the key is hashed even when the map is empty. *)
Definition dict_get (m : pydict) (k dflt : pyval) : result pyval :=
  if hashable k then Ok (default dflt (dict_find m k)) else Raise TypeError.

(** [{t["objectId"]: t for t in telemetry}], entry by entry. *)
Fixpoint build_telem_map (m : pydict) (ts : list pyval) : result pydict :=
  match ts with
  | [] => Ok m
  | t :: ts' =>
      let* k := py_getitem t "objectId" in
      if hashable k then build_telem_map (dict_set m k t) ts'
      else Raise TypeError
  end.

(** ** Position records *)

Record PositionRecord : Type := {
  object_id : pyval;
  number : pyval;
  name : pyval;
  license_plate : string;
  type : pyval;
  latitude : pyval;
  longitude : pyval;
  address : pyval;
  speed : pyval;
  ignition : pyval;
  stand_still : pyval;
  last_gps_time : pyval;
  odometer_km : Q
}.

Fixpoint mapM {A B} (f : A -> result B) (l : list A) : result (list B) :=
  match l with
  | [] => Ok []
  | x :: l' =>
      let* y := f x in
      let* ys := mapM f l' in
      Ok (y :: ys)
  end.

Section Scraper.
Context `{PyLib}.

(** [telem.get("position", obj.get("position", {})) or {}]. *)
Definition resolve_pos (telem obj : pyval) : result pyval :=
  let* own := py_get obj "position" (PDict ∅) in
  let* p := py_get telem "position" own in
  Ok (py_or p (PDict ∅)).

(** One turn of the loop of [get_positions]: the record appended for [obj]. *)
Definition position_of (telem_map : pydict) (obj : pyval) : result PositionRecord :=
  let* oid := py_getitem obj "objectId" in
  let* telem := dict_get telem_map oid (PDict ∅) in
  let* pos := resolve_pos telem obj in
  let* r_object_id := py_get obj "objectId" PNone in
  let* r_number := py_get obj "number" (PStr "") in
  let* r_name := py_get obj "name" (PStr "") in
  let* plate := py_get obj "licensePlate" (PStr "") in
  let* r_license_plate := py_strip plate in
  let* r_type := py_get obj "type" (PStr "") in
  let* r_latitude :=
    if is_dict pos then py_get pos "latitude" PNone else Ok PNone in
  let* r_longitude :=
    if is_dict pos then py_get pos "longitude" PNone else Ok PNone in
  let* r_address :=
    if is_dict pos
    then (let* loc := py_get pos "location" (PDict ∅) in
          py_get loc "address" (PStr ""))
    else (let* descr := py_get obj "locationDescription" (PDict ∅) in
          py_get descr "address" (PStr "")) in
  let* r_speed := py_get telem "speed" (PInt 0) in
  let* r_ignition := py_get telem "ignition" (PStr "UNKNOWN") in
  let* r_stand_still := py_get telem "standStill" (PBool false) in
  let* gps := if is_dict pos then py_get pos "time" PNone else Ok PNone in
  let* r_last_gps_time :=
    if truthy gps then Ok gps else py_get obj "lastGpsTime" (PStr "") in
  let* odo := py_get obj "odometer" (PInt 0) in
  let* r_odometer_km := py_div100 odo in
  Ok {| object_id := r_object_id;
        number := r_number;
        name := r_name;
        license_plate := r_license_plate;
        type := r_type;
        latitude := r_latitude;
        longitude := r_longitude;
        address := r_address;
        speed := r_speed;
        ignition := r_ignition;
        stand_still := r_stand_still;
        last_gps_time := r_last_gps_time;
        odometer_km := r_odometer_km |}.

(** [self.intercepted_data.get(key, []) or []]. *)
Definition captured (intercepted_data : gmap string pyval) (key : string) : pyval :=
  py_or (default (PList []) (intercepted_data !! key)) (PList []).

(** [WebfleetScraper.get_positions] on the two captured payloads. *)
Definition reconcile (objects telemetry : pyval) : result (list PositionRecord) :=
  if negb (truthy objects) then Ok []
  else
    let* ts := py_iter telemetry in
    let* telem_map := build_telem_map [] ts in
    let* objs := py_iter objects in
    mapM (position_of telem_map) objs.

Definition get_positions (intercepted_data : gmap string pyval)
  : result (list PositionRecord) :=
  reconcile (captured intercepted_data "objects")
            (captured intercepted_data "telemetry").

End Scraper.

(** ** The snapshot cache *)

(** A [datetime], counted in microseconds (its resolution). *)
Definition datetime : Type := Z.

(** List objects live in a store and are named by reference, so that the
    list held by the cache and the list a handler builds can be told apart.
    The records in them are never written after [get_positions] returns and
    are kept as values. *)
Abbreviation loc := nat.
Abbreviation store := (list (list PositionRecord)).

Definition deref (h : store) (l : loc) : list PositionRecord :=
  default [] (h !! l).

(** A new list object. *)
Definition alloc (h : store) (ps : list PositionRecord) : loc * store :=
  (Datatypes.length h, (h ++ [ps])%list).

Record DataCache : Type := {
  positions : loc;
  last_update : option datetime;
  error : option string;
  login_count : Z;
  refresh_count : Z
}.

Record world : Type := {
  heap : store;
  cache : DataCache
}.

(** [DataCache.__init__]: the cache starts with an empty list of its own. *)
Definition init_world : world :=
  {| heap := [[]];
     cache := {| positions := 0%nat;
                 last_update := None;
                 error := None;
                 login_count := 0;
                 refresh_count := 0 |} |}.

(** [DataCache.update(positions)] at time [now]. *)
Definition update (c : DataCache) (new_positions : loc) (now : datetime) : DataCache :=
  {| positions := new_positions;
     last_update := Some now;
     error := None;
     login_count := login_count c;
     refresh_count := refresh_count c + 1 |}.

(** [DataCache.set_error(error)]; [msg] is [str(error)]. *)
Definition set_error (c : DataCache) (msg : string) : DataCache :=
  {| positions := positions c;
     last_update := last_update c;
     error := Some msg;
     login_count := login_count c;
     refresh_count := refresh_count c |}.

(** The world after a method has rebound fields of the cache object: no list
    object is touched. *)
Definition with_cache (w : world) (c : DataCache) : world :=
  {| heap := heap w; cache := c |}.

(** [timedelta.total_seconds()] of [now - t]. *)
Definition total_seconds (now t : datetime) : Q := (now - t) # 1000000.

(** [round(x, 1)] on the idealised value: the nearest tenth, ties to the even
    one.  Python rounds the binary float, which on an exact tie of the
    idealised value may land on the other tenth. *)
Definition round1 (x : Q) : Q :=
  let t := (x * 10)%Q in
  let f := Qfloor t in
  let r := (t - inject_Z f)%Q in
  let n :=
    match Qcompare r (1 # 2) with
    | Lt => f
    | Gt => f + 1
    | Eq => if Z.even f then f else f + 1
    end in
  (n # 10).

(** The dict [DataCache.get] returns.  [last_update] carries the timestamp
    whose ISO text the source stores; that text is never empty. *)
Record Snapshot : Type := {
  v_positions : loc;
  v_count : nat;
  v_last_update : option datetime;
  v_cache_age_seconds : option Q;
  v_error : option string
}.

Definition truthy_float (x : Q) : bool := negb (Qeq_bool x 0).

(** [DataCache.get()] at time [now]. *)
Definition get (w : world) (now : datetime) : Snapshot :=
  let c := cache w in
  let age :=
    match last_update c with
    | Some t => Some (total_seconds now t)
    | None => None
    end in
  {| v_positions := positions c;
     v_count := Datatypes.length (deref (heap w) (positions c));
     v_last_update := last_update c;
     v_cache_age_seconds :=
       match age with
       | Some a => if truthy_float a then Some (round1 a) else None
       | None => None
       end;
     v_error := error c |}.

Record Stats : Type := {
  s_login_count : Z;
  s_refresh_count : Z;
  s_vehicle_count : nat;
  s_last_update : option datetime;
  s_error : option string
}.

(** [DataCache.stats()]. *)
Definition stats (w : world) : Stats :=
  let c := cache w in
  {| s_login_count := login_count c;
     s_refresh_count := refresh_count c;
     s_vehicle_count := Datatypes.length (deref (heap w) (positions c));
     s_last_update := last_update c;
     s_error := error c |}.

(** ** The HTTP handlers *)

Record request : Type := {
  path : string;
  authorization : option string
}.

Inductive body : Type :=
| BSnapshot (view : Snapshot) (listed : list PositionRecord)
| BHealth (status : string) (data : Stats)
| BStats (data : Stats)
| BError (message : string)
| BNotFound
| BNone.

Record response : Type := {
  http_status : Z;
  payload : body
}.

Definition is_ascii_char (c : ascii) : bool := (nat_of_ascii c <? 128)%nat.

Definition is_ascii (s : string) : bool :=
  forallb is_ascii_char (list_ascii_of_string s).

(** [secrets.compare_digest(a, b)] on two [str]: text outside ASCII is
    refused with an exception.  Its timing is not modelled. *)
Definition compare_digest (a b : string) : result bool :=
  if is_ascii a && is_ascii b then Ok (String.eqb a b) else Raise TypeError.

(** Truthiness of an optional text ([None] or a [str]). *)
Definition truthy_text (o : option string) : bool :=
  match o with
  | Some s => negb (String.eqb s "")
  | None => false
  end.

(** [s[n:]]. *)
Fixpoint str_drop (n : nat) (s : string) : string :=
  match n, s with
  | O, _ => s
  | S n', String _ s' => str_drop n' s'
  | S _, EmptyString => EmptyString
  end.

(** [needle in hay] on text. *)
Fixpoint str_contains (needle hay : string) : bool :=
  String.prefix needle hay ||
  match hay with
  | EmptyString => false
  | String _ hay' => str_contains needle hay'
  end.

(** [p["speed"] > 0]. *)
Definition py_gt0 (v : pyval) : result bool :=
  match num_of v with
  | Some q => Ok (negb (Qle_bool q 0))
  | None => Raise TypeError
  end.

(** [not p["stand_still"] or p["speed"] > 0]. *)
Definition is_moving (p : PositionRecord) : result bool :=
  if negb (truthy (stand_still p)) then Ok true else py_gt0 (speed p).

(** [p["stand_still"] and p["speed"] == 0], as the comprehension tests it. *)
Definition is_stopped (p : PositionRecord) : bool :=
  truthy (stand_still p) && py_eqb (speed p) (PInt 0).

(** A list comprehension with a condition that may raise. *)
Fixpoint filterM {A} (f : A -> result bool) (l : list A) : result (list A) :=
  match l with
  | [] => Ok []
  | x :: l' =>
      let* keep := f x in
      let* rest := filterM f l' in
      Ok (if keep then x :: rest else rest)
  end.

Definition unauthorized_message : string :=
  "Unauthorized. Use 'Authorization: Bearer <API_KEY>' header".

Section Handlers.
Context `{PyLib}.
Variable API_KEY : string.

(** [urlparse(self.path)], as far as it can fail; what it returns is read
    through [urlparse_path] and [query_first]. *)
Definition urlparse (target : string) : result unit :=
  if url_ok target then Ok tt else Raise ValueError.

(** [APIHandler.check_auth]. *)
Definition check_auth (req : request) : result bool :=
  if String.eqb API_KEY "" then Ok true
  else
    let auth := default "" (authorization req) in
    let* by_header :=
      if String.prefix "Bearer " auth
      then compare_digest (str_drop 7 auth) API_KEY
      else Ok false in
    if by_header then Ok true
    else
      let* parsed := urlparse (path req) in
      let key := query_first (path req) "api_key" in
      let* by_param :=
        if truthy_text key
        then compare_digest (default "" key) API_KEY
        else Ok false in
      Ok by_param.

(** [APIHandler.send_json]: the status line and the body.  The encoding of
    the body to UTF-8, which raises on text that UTF-8 cannot hold, is not
    modelled. *)
Definition send_json (data : body) (status : Z) : response :=
  {| http_status := status; payload := data |}.

(** [data["last_update"] and not data["error"]]. *)
Definition looks_healthy (data : Stats) : bool :=
  match s_last_update data with Some _ => true | None => false end
  && negb (truthy_text (s_error data)).

(** [APIHandler.do_HEAD]. *)
Definition do_HEAD (w : world) (req : request) : response :=
  if String.eqb (path req) "/health"
  then {| http_status := if looks_healthy (stats w) then 200 else 503;
          payload := BNone |}
  else {| http_status := 404; payload := BNone |}.


(** The tail shared by the filtered endpoints: rebind [data["positions"]] to
    the new list, recompute [data["count"]], send. *)
Definition send_filtered (w : world) (data : Snapshot) (kept : list PositionRecord)
  : response * world :=
  let (l, h') := alloc (heap w) kept in
  let data1 :=
    {| v_positions := l;
       v_count := v_count data;
       v_last_update := v_last_update data;
       v_cache_age_seconds := v_cache_age_seconds data;
       v_error := v_error data |} in
  let data2 :=
    {| v_positions := v_positions data1;
       v_count := Datatypes.length (deref h' (v_positions data1));
       v_last_update := v_last_update data1;
       v_cache_age_seconds := v_cache_age_seconds data1;
       v_error := v_error data1 |} in
  (send_json (BSnapshot data2 (deref h' (v_positions data2))) 200,
   {| heap := h'; cache := cache w |}).

(** [GET /positions/vehicle]. *)
Definition vehicle (w : world) (now : datetime) (req : request) : response * world :=
  let plate := query_first (path req) "plate" in
  let number_q := query_first (path req) "number" in
  let data := get w now in
  let listed := deref (heap w) (v_positions data) in
  if truthy_text plate then
    send_filtered w data
      (List.filter (fun p => str_contains (str_upper (default "" plate))
                                          (str_upper (license_plate p))) listed)
  else if truthy_text number_q then
    send_filtered w data
      (List.filter (fun p => py_eqb (number p) (PStr (default "" number_q))) listed)
  else
    let data' :=
      {| v_positions := v_positions data;
         v_count := Datatypes.length (deref (heap w) (v_positions data));
         v_last_update := v_last_update data;
         v_cache_age_seconds := v_cache_age_seconds data;
         v_error := v_error data |} in
    (send_json (BSnapshot data' (deref (heap w) (v_positions data'))) 200, w).

(** [GET /positions/moving]. *)
Definition moving (w : world) (now : datetime) : result (response * world) :=
  let data := get w now in
  let* kept := filterM is_moving (deref (heap w) (v_positions data)) in
  Ok (send_filtered w data kept).

(** [GET /positions/stopped]. *)
Definition stopped (w : world) (now : datetime) : response * world :=
  let data := get w now in
  send_filtered w data (List.filter is_stopped (deref (heap w) (v_positions data))).

(** [APIHandler.do_GET]. *)
Definition do_GET (w : world) (now : datetime) (req : request)
  : result (response * world) :=
  if String.eqb (path req) "/health" then
    let data := stats w in
    let status := if looks_healthy data then "healthy" else "unhealthy" in
    Ok (send_json (BHealth status data) 200, w)
  else
    let* authorized := check_auth req in
    if negb authorized then Ok (send_json (BError unauthorized_message) 401, w)
    else
      let* parsed := urlparse (path req) in
      let p := urlparse_path (path req) in
      if String.eqb p "/positions" || String.eqb p "/" then
        let data := get w now in
        Ok (send_json (BSnapshot data (deref (heap w) (v_positions data))) 200, w)
      else if String.eqb p "/positions/vehicle" then Ok (vehicle w now req)
      else if String.eqb p "/positions/moving" then moving w now
      else if String.eqb p "/positions/stopped" then Ok (stopped w now)
      else if String.eqb p "/stats" then Ok (send_json (BStats (stats w)) 200, w)
      else Ok (send_json BNotFound 404, w).

End Handlers.

(** ** The scraper: captures, login, refresh and the supervisor loop

    What the browser does is not part of the program: each [await] on it is
    described by an outcome, the responses that arrived while it ran and the
    text of the exception it raised, if any. *)

(** [self.intercepted_data] after [__init__] and after the reset in
    [refresh]. *)
Definition no_capture : gmap string pyval :=
  <["objects" := PNone]> (<["telemetry" := PNone]> ∅).

(** [WebfleetScraper._intercept_response] for a response at [url];
    [json] is the outcome of [response.json()], [None] when it raised.  The
    exception, like one raised while logging the length, is swallowed by the
    handler: the assignment made before it stays. *)
Definition _intercept_response (url : string) (json : option pyval)
    (intercepted_data : gmap string pyval) : gmap string pyval :=
  if str_contains "/api/objects" url && negb (str_contains "?" url) then
    match json with
    | Some v => <["objects" := v]> intercepted_data
    | None => intercepted_data
    end
  else if str_contains "/api/latestTelemetry/objects" url then
    match json with
    | Some v => <["telemetry" := v]> intercepted_data
    | None => intercepted_data
    end
  else intercepted_data.

(** The responses seen during one [await], in their order of arrival. *)
Definition deliver (responses : list (string * option pyval))
    (intercepted_data : gmap string pyval) : gmap string pyval :=
  fold_left (fun d ev => _intercept_response ev.1 ev.2 d) responses intercepted_data.

Record browser : Type := {
  arrived : list (string * option pyval);
  failure : option string
}.

(** The cache and the scraper's captures. *)
Record supervisor : Type := {
  served : world;
  intercepted : gmap string pyval
}.

(** [cache.login_count += 1]. *)
Definition count_login (c : DataCache) : DataCache :=
  {| positions := positions c;
     last_update := last_update c;
     error := error c;
     login_count := login_count c + 1;
     refresh_count := refresh_count c |}.

(** [WebfleetScraper.login]: the attempt is counted first; an exception of
    the browser is recorded as [Login failed: ...] and answered [False]. *)
Definition login (b : browser) (s : supervisor) : bool * supervisor :=
  let w1 := with_cache (served s) (count_login (cache (served s))) in
  let data := deliver (arrived b) (intercepted s) in
  match failure b with
  | None => (true, {| served := w1; intercepted := data |})
  | Some msg =>
      (false,
       {| served := with_cache w1 (set_error (cache w1) ("Login failed: " ++ msg));
          intercepted := data |})
  end.

(** [WebfleetScraper.refresh]: the captures are dropped before the reload,
    whatever its outcome. *)
Definition refresh (b : browser) (s : supervisor) : bool * supervisor :=
  (match failure b with None => true | Some _ => false end,
   {| served := served s; intercepted := deliver (arrived b) no_capture |}).

(** What one turn of the refresh loop meets. *)
Record poll_env : Type := {
  clock : datetime;
  raised_text : string;
  dump_failure : option string;
  empty_login : browser;
  during_sleep : list (string * option pyval);
  reload : browser;
  reload_login : browser
}.

Section Supervisor.
Context `{PyLib}.

(** The end of a turn: sleep, refresh, and a login when the refresh failed.
    The boolean tells whether the loop goes on. *)
Definition sleep_and_refresh (e : poll_env) (s : supervisor) : supervisor * bool :=
  let s1 := {| served := served s;
               intercepted := deliver (during_sleep e) (intercepted s) |} in
  let (reloaded, s2) := refresh (reload e) s1 in
  if reloaded then (s2, true)
  else let (logged, s3) := login (reload_login e) s2 in (s3, logged).

(** One turn of the inner loop of [background_scraper].  [raised_text] is
    [str(e)] for an exception of [get_positions], [dump_failure] the one of
    writing the snapshot file. *)
Definition poll_iteration (e : poll_env) (s : supervisor) : supervisor * bool :=
  match get_positions (intercepted s) with
  | Raise _ =>
      ({| served := with_cache (served s)
                      (set_error (cache (served s)) (raised_text e));
          intercepted := intercepted s |}, false)
  | Ok [] =>
      let (logged, s1) := login (empty_login e) s in
      if logged then sleep_and_refresh e s1 else (s1, false)
  | Ok (p :: ps) =>
      let (l, h) := alloc (heap (served s)) (p :: ps) in
      let w1 := {| heap := h; cache := update (cache (served s)) l (clock e) |} in
      match dump_failure e with
      | Some msg =>
          ({| served := with_cache w1 (set_error (cache w1) msg);
              intercepted := intercepted s |}, false)
      | None =>
          sleep_and_refresh e {| served := w1; intercepted := intercepted s |}
      end
  end.

(** The inner loop, over the turns it gets to run. *)
Fixpoint polling (turns : list poll_env) (s : supervisor) : supervisor :=
  match turns with
  | [] => s
  | e :: turns' =>
      let (s', continue) := poll_iteration e s in
      if continue then polling turns' s' else s'
  end.

(** One pass of the outer loop: start the browser, log in, poll.  Closing
    the browser is taken not to raise. *)
Record session_env : Type := {
  start_failure : option string;
  first_login : browser;
  turns : list poll_env
}.

Definition session (e : session_env) (s : supervisor) : supervisor :=
  match start_failure e with
  | Some msg =>
      {| served := with_cache (served s) (set_error (cache (served s)) msg);
         intercepted := intercepted s |}
  | None =>
      let (logged, s1) := login (first_login e) s in
      if logged then polling (turns e) s1 else s1
  end.

(** [background_scraper], over the sessions it gets to run. *)
Definition background_scraper (sessions : list session_env) (s : supervisor)
  : supervisor :=
  fold_left (fun st e => session e st) sessions s.

End Supervisor.

(** The process as it starts. *)
Definition init_supervisor : supervisor :=
  {| served := init_world; intercepted := no_capture |}.

(** ** An ASCII reading of the library interface

    Used to run the model on concrete requests and payloads.  It agrees with
    the Python library on ASCII text, on origin-form request targets free of
    percent escapes, [+], [;] and brackets, and on quotients that a [float]
    holds exactly.  It refuses a target with an unmatched bracket, as
    [urlparse] refuses [http://[/positions] (the library looks at the host
    part only). *)
Module AsciiLib.

Definition code (c : ascii) : nat := nat_of_ascii c.

Definition is_space (c : ascii) : bool :=
  let n := code c in
  ((9 <=? n) && (n <=? 13) || (28 <=? n) && (n <=? 32))%nat.

Fixpoint lstrip (l : list ascii) : list ascii :=
  match l with
  | c :: l' => if is_space c then lstrip l' else l
  | [] => []
  end.

Definition strip (s : string) : string :=
  string_of_list_ascii (rev (lstrip (rev (lstrip (list_ascii_of_string s))))).

Definition upper_char (c : ascii) : ascii :=
  let n := code c in
  if ((97 <=? n) && (n <=? 122))%nat then ascii_of_nat (n - 32) else c.

Definition upper (s : string) : string :=
  string_of_list_ascii (upper_char <$> list_ascii_of_string s).

(** The text before and after the first [c]. *)
Fixpoint cut (c : ascii) (l : list ascii) : list ascii * option (list ascii) :=
  match l with
  | [] => ([], None)
  | x :: l' =>
      if Ascii.eqb x c then ([], Some l')
      else let (a, b) := cut c l' in (x :: a, b)
  end.

Fixpoint split_on (fuel : nat) (c : ascii) (l : list ascii) : list (list ascii) :=
  match fuel with
  | O => [l]
  | S fuel' =>
      match cut c l with
      | (a, None) => [a]
      | (a, Some b) => a :: split_on fuel' c b
      end
  end.

Definition target_ok (target : string) : bool :=
  Bool.eqb (str_contains "[" target) (str_contains "]" target).

Definition url_path (target : string) : string :=
  if target_ok target then
    let no_fragment := (cut "#" (list_ascii_of_string target)).1 in
    string_of_list_ascii (cut "?" no_fragment).1
  else "".

Definition url_query (target : string) : list ascii :=
  let no_fragment := (cut "#" (list_ascii_of_string target)).1 in
  default [] (cut "?" no_fragment).2.

(** The [name=value] fields of a query whose value is not blank. *)
Definition fields (q : list ascii) : list (string * string) :=
  omap (fun field =>
          match cut "=" field with
          | (_, None) | (_, Some []) => None
          | (n, Some v) => Some (string_of_list_ascii n, string_of_list_ascii v)
          end)
       (split_on (Datatypes.length q) "&" q).

Definition first_value (target name : string) : option string :=
  snd <$> List.find (fun f => String.eqb (fst f) name) (fields (url_query target)).

Definition lib : PyLib :=
  {| str_strip := strip;
     str_upper := upper;
     urlparse_path := url_path;
     query_first := first_value;
     url_ok := target_ok;
     float_round := fun q => q;
     urlparse_path_refused :=
       fun target (E : target_ok target = false) =>
         f_equal (fun b : bool =>
                    if b then
                      string_of_list_ascii
                        (cut "?" (cut "#" (list_ascii_of_string target)).1).1
                    else "") E |}.

End AsciiLib.

(** ** Running the model *)

Definition jdict (l : list (string * pyval)) : pyval := PDict (list_to_map l).

(** The end-to-end scenario: one object, one matching telemetry record. *)
Definition scenario_objects : pyval :=
  PList [jdict [("objectId", PStr "A1"); ("licensePlate", PStr " AB-123 ");
                ("odometer", PInt 15050)]].
Definition scenario_telemetry : pyval :=
  PList [jdict [("objectId", PStr "A1"); ("speed", PInt 42);
                ("standStill", PBool false)]].


(** A small fleet: [A1] with a telemetry position, [B2] with its own
    position and no telemetry, [C3] with an unstructured position and a
    location description. *)
Definition fleet_objects : list pyval :=
  [jdict [("objectId", PStr "A1"); ("number", PStr "001"); ("odometer", PInt 15050);
          ("position", jdict [("latitude", PInt 1); ("longitude", PInt 2)])];
   jdict [("objectId", PStr "B2"); ("licensePlate", PStr "CD-456");
          ("position", jdict [("latitude", PInt 48); ("longitude", PInt 2);
                              ("location", jdict [("address", PStr "Quai 1")])])];
   jdict [("objectId", PStr "C3"); ("position", PStr "unknown");
          ("locationDescription", jdict [("address", PStr "Quai 3")])]].

Definition fleet_telemetry : list pyval :=
  [jdict [("objectId", PStr "A1"); ("speed", PInt 0);
          ("position", jdict [("latitude", PInt 50); ("longitude", PInt 4)])];
   jdict [("objectId", PStr "A1"); ("speed", PInt 42); ("standStill", PBool false);
          ("position", jdict [("latitude", PInt 51); ("longitude", PInt 5);
                              ("time", PStr "2024-01-01T00:00:00Z")])]].

Definition fleet_records : list PositionRecord :=
  match @reconcile AsciiLib.lib (PList fleet_objects) (PList fleet_telemetry) with
  | Ok rs => rs
  | Raise _ => []
  end.






(** A world whose cache holds the reconciled scenario. *)
Definition scenario_world (now : datetime) : world :=
  match @reconcile AsciiLib.lib scenario_objects scenario_telemetry with
  | Ok rs =>
      let (l, h) := alloc (heap init_world) rs in
      {| heap := h; cache := update (cache init_world) l now |}
  | Raise _ => init_world
  end.

(** ** Statements read from the specification *)

(** The health rule in the specification's words: [last_update] is set and
    [error] is null. *)
Definition spec_healthy (data : Stats) : Prop :=
  s_last_update data <> None /\ s_error data = None.

(** The moving rule in the specification's words: [stand_still] is false or
    [speed] is above zero. *)
Definition spec_moving (p : PositionRecord) : bool :=
  negb (truthy (stand_still p))
  || match num_of (speed p) with
     | Some q => negb (Qle_bool q 0)
     | None => false
     end.

(** [t] is a telemetry record carrying the key [k]. *)
Definition has_id (t k : pyval) : bool :=
  match t with
  | PDict d =>
      match d !! "objectId" with
      | Some k' => py_eqb k' k
      | None => false
      end
  | _ => false
  end.

(** Last-write-wins: the last telemetry record carrying [k], if any. *)
Fixpoint last_match (ts : list pyval) (k : pyval) : option pyval :=
  match ts with
  | [] => None
  | t :: ts' =>
      match last_match ts' k with
      | Some t' => Some t'
      | None => if has_id t k then Some t else None
      end
  end.

(** The fields of the telemetry record matching [k]; none when no record
    matches. *)
Definition telem_of (ts : list pyval) (k : pyval) : gmap string pyval :=
  match last_match ts k with
  | Some (PDict t) => t
  | _ => ∅
  end.






(** The fields a record takes from its object [d] alone. *)
Definition object_fields `{PyLib} (d : gmap string pyval) (r : PositionRecord) : Prop :=
  Some (object_id r) = d !! "objectId"
  /\ number r = default (PStr "") (d !! "number")
  /\ name r = default (PStr "") (d !! "name")
  /\ (exists plate, default (PStr "") (d !! "licensePlate") = PStr plate
                    /\ license_plate r = str_strip plate)
  /\ type r = default (PStr "") (d !! "type")
  /\ (exists q, num_of (default (PInt 0) (d !! "odometer")) = Some q
                /\ odometer_km r = float_round (q / 100)).

(** The fields a record takes from the matching telemetry [t], with their
    defaults when [t] lacks them. *)
Definition telemetry_fields (t : gmap string pyval) (r : PositionRecord) : Prop :=
  speed r = default (PInt 0) (t !! "speed")
  /\ ignition r = default (PStr "UNKNOWN") (t !! "ignition")
  /\ stand_still r = default (PBool false) (t !! "standStill").

(** The position value a record is resolved from: the one under the
    telemetry's [position] key when the key is there, else the one under the
    object's, else none; a value that is null or empty counts as none. *)
Definition resolved_position (d t : gmap string pyval) : pyval :=
  py_or (default (default (PDict ∅) (d !! "position")) (t !! "position")) (PDict ∅).

(** How coordinates, address and GPS time follow from the resolved
    position. *)
Definition position_fields (d t : gmap string pyval) (r : PositionRecord) : Prop :=
  match resolved_position d t with
  | PDict p =>
      latitude r = default PNone (p !! "latitude")
      /\ longitude r = default PNone (p !! "longitude")
      /\ (exists loc, default (PDict ∅) (p !! "location") = PDict loc
                      /\ address r = default (PStr "") (loc !! "address"))
      /\ last_gps_time r
         = py_or (default PNone (p !! "time")) (default (PStr "") (d !! "lastGpsTime"))
  | _ =>
      latitude r = PNone
      /\ longitude r = PNone
      /\ (exists descr, default (PDict ∅) (d !! "locationDescription") = PDict descr
                        /\ address r = default (PStr "") (descr !! "address"))
      /\ last_gps_time r = default (PStr "") (d !! "lastGpsTime")
  end.

(** A record described by its object and by the telemetry captured. *)
Definition described_by `{PyLib} (ts : list pyval) (obj : pyval) (r : PositionRecord)
  : Prop :=
  exists d k,
    obj = PDict d /\ d !! "objectId" = Some k /\ hashable k = true
    /\ object_fields d r
    /\ telemetry_fields (telem_of ts k) r
    /\ position_fields d (telem_of ts k) r.

(** The [objectId]s of an object list, in its order. *)
Definition ids_of (objs : list pyval) : list pyval :=
  omap (fun o => match o with PDict d => d !! "objectId" | _ => None end) objs.

(** No two entries of the object list carry the same [objectId]. *)
Definition distinct_ids (objs : list pyval) : Prop :=
  forall (i j : nat) (ki kj : pyval),
    ids_of objs !! i = Some ki -> ids_of objs !! j = Some kj ->
    py_eqb ki kj = true -> i = j.

(** Exactly one record for each [objectId] of the object list. *)
Definition one_per_distinct_id (objs : list pyval) (rs : list PositionRecord) : Prop :=
  forall k, k ∈ ids_of objs ->
    exists i : nat,
      (exists r, rs !! i = Some r /\ py_eqb (object_id r) k = true)
      /\ forall (j : nat) r, rs !! j = Some r -> py_eqb (object_id r) k = true -> j = i.


(** Payloads on which no step of the reconciliation can fail. *)
Definition wf_position (v : option pyval) : bool :=
  match v with
  | Some (PDict p) =>
      match p !! "location" with
      | None | Some (PDict _) => true
      | Some _ => false
      end
  | _ => true
  end.

Definition wf_telemetry (t : pyval) : bool :=
  match t with
  | PDict d =>
      match d !! "objectId" with Some k => hashable k | None => false end
      && wf_position (d !! "position")
  | _ => false
  end.

Definition wf_odometer (v : option pyval) : bool :=
  match v with
  | None | Some (PBool _) | Some (PFloat _) => true
  | Some (PInt z) => negb (Qle_bool float_limit (Qabs (inject_Z z / 100)))
  | Some _ => false
  end.

Definition wf_object (o : pyval) : bool :=
  match o with
  | PDict d =>
      match d !! "objectId" with Some k => hashable k | None => false end
      && match d !! "licensePlate" with None | Some (PStr _) => true | _ => false end
      && wf_odometer (d !! "odometer")
      && wf_position (d !! "position")
      && match d !! "locationDescription" with
         | None | Some (PDict _) => true
         | _ => false
         end
  | _ => false
  end.

(** The objects the loop of [get_positions] gets through, given the
    telemetry captured: a dict with a hashable [objectId]; a [licensePlate]
    that is text and an [odometer] that is a number in float range, each
    when present; and, where the address is read, a dict or nothing: the
    [location] of the resolved position when that position is a dict, the
    object's [locationDescription] otherwise. *)
Definition accepted_object (ts : list pyval) (o : pyval) : bool :=
  match o with
  | PDict d =>
      match d !! "objectId" with
      | Some k =>
          hashable k
          && match d !! "licensePlate" with None | Some (PStr _) => true | _ => false end
          && wf_odometer (d !! "odometer")
          && match resolved_position d (telem_of ts k) with
             | PDict p =>
                 match p !! "location" with
                 | None | Some (PDict _) => true
                 | Some _ => false
                 end
             | _ =>
                 match d !! "locationDescription" with
                 | None | Some (PDict _) => true
                 | Some _ => false
                 end
             end
      | None => false
      end
  | _ => false
  end.

(** The bearer token of a request: what follows [Bearer ] in the
    [Authorization] header. *)
Definition bearer_token (req : request) : option string :=
  let auth := default "" (authorization req) in
  if String.prefix "Bearer " auth then Some (str_drop 7 auth) else None.

(** The credential rule in the specification's words: the bearer token or
    the [api_key] query parameter equals the configured key. *)
Definition credentials_accepted `{PyLib} (API_KEY : string) (req : request) : Prop :=
  bearer_token req = Some API_KEY \/ query_first (path req) "api_key" = Some API_KEY.

(** A handler left the cache object and every list object as they were. *)
Definition untouched (w w' : world) : Prop :=
  cache w' = cache w
  /\ forall (l : loc) (ps : list PositionRecord),
       heap w !! l = Some ps -> heap w' !! l = Some ps.

(** A record that stands still with a speed below zero: the one case that
    neither [/positions/moving] nor [/positions/stopped] lists. *)
Definition stands_below_zero (p : PositionRecord) : bool :=
  truthy (stand_still p)
  && match num_of (speed p) with
     | Some q => negb (Qle_bool 0 q)
     | None => false
     end.

(** A record is a dict with a hashable [objectId]. *)
Definition has_key (v : pyval) : bool :=
  match v with
  | PDict d => match d !! "objectId" with Some k => hashable k | None => false end
  | _ => false
  end.

(** The URL tests of [_intercept_response], branch by branch. *)
Definition is_objects_url (url : string) : bool :=
  str_contains "/api/objects" url && negb (str_contains "?" url).

Definition is_telemetry_url (url : string) : bool :=
  negb (is_objects_url url) && str_contains "/api/latestTelemetry/objects" url.

(** The payload of the last response of a stream that could be read. *)
Fixpoint last_capture (stream : string -> bool) (responses : list (string * option pyval))
  : option pyval :=
  match responses with
  | [] => None
  | (url, json) :: rest =>
      match last_capture stream rest with
      | Some v => Some v
      | None => if stream url then json else None
      end
  end.

Definition store_capture (key : string) (v : option pyval)
    (intercepted_data : gmap string pyval) : gmap string pyval :=
  match v with
  | Some x => <[key := x]> intercepted_data
  | None => intercepted_data
  end.

(** Once updated, the cache holds a list that is not empty; before, it holds
    the empty list it started with.  The counter of refreshes tells which. *)
Definition never_emptied (w : world) : Prop :=
  (last_update (cache w) = None /\ refresh_count (cache w) = 0
   /\ deref (heap w) (positions (cache w)) = [])
  \/ (last_update (cache w) <> None /\ 0 < refresh_count (cache w)
      /\ deref (heap w) (positions (cache w)) <> []).

(** A later state of the same process: counters only grow and list objects
    stay as they were. *)
Definition grows_from (w w' : world) : Prop :=
  login_count (cache w) <= login_count (cache w')
  /\ refresh_count (cache w) <= refresh_count (cache w')
  /\ forall (l : loc) (ps : list PositionRecord),
       heap w !! l = Some ps -> heap w' !! l = Some ps.

(** A step keeps the invariant and only grows the state. *)
Definition sound_step (w w' : world) : Prop :=
  (never_emptied w -> never_emptied w') /\ grows_from w w'.

(** * Properties *)

Section CacheProperties.

Lemma total_seconds_zero (now t : datetime) :
  truthy_float (total_seconds now t) = false <-> now = t.
Proof.
  unfold truthy_float, total_seconds. rewrite negb_false_iff, Qeq_bool_iff.
  unfold Qeq; simpl. lia.
Qed.

(** [get] reports no age exactly when the cache was never updated or no time
    has passed since the update. *)
Lemma get_age_none (w : world) (now : datetime) :
  v_cache_age_seconds (get w now) = None
  <-> last_update (cache w) = None \/ last_update (cache w) = Some now.
Proof.
  unfold get; simpl. destruct (last_update (cache w)) as [t|]; [|tauto].
  destruct (truthy_float (total_seconds now t)) eqn:E.
  - split; [discriminate|]. intros [?|[= ->]]; [discriminate|].
    assert (truthy_float (total_seconds now now) = false) by now apply total_seconds_zero.
    congruence.
  - apply total_seconds_zero in E. subst. tauto.
Qed.

(** Once time has passed, the age is the elapsed time rounded to a tenth. *)
Lemma get_age_some (w : world) (now t : datetime) :
  last_update (cache w) = Some t -> now <> t ->
  v_cache_age_seconds (get w now) = Some (round1 (total_seconds now t)).
Proof.
  intros E Hne. unfold get; simpl. rewrite E.
  destruct (truthy_float (total_seconds now t)) eqn:T; [reflexivity|].
  apply total_seconds_zero in T. contradiction.
Qed.

(** [round1] lands on a tenth, at most half a tenth away. *)
Lemma round1_tenth (x : Q) : exists n : Z, round1 x = n # 10.
Proof. unfold round1. eauto. Qed.

Lemma round1_near (x : Q) : (Qabs (round1 x - x) <= 1 # 20)%Q.
Proof.
  unfold round1.
  pose proof (Qfloor_le (x * 10)) as Hlo.
  pose proof (Qlt_floor (x * 10)) as Hhi.
  set (f := Qfloor (x * 10)) in *.
  rewrite inject_Z_plus in Hhi.
  apply Qabs_case; intros _;
    destruct (Qcompare_spec (x * 10 - inject_Z f) (1 # 2)) as [E|L|G];
    try destruct (Z.even f);
    rewrite ?(Qmake_Qdiv (f + 1) 10), ?(Qmake_Qdiv f 10), ?inject_Z_plus;
    change (inject_Z (Z.pos 10)) with 10%Q; change (inject_Z 1) with 1%Q in *;
    unfold Qdiv; change (/ 10)%Q with (1 # 10)%Q;
    generalize dependent (inject_Z f); intros y; intros; lra.
Qed.

End CacheProperties.

(** C5: [get] is asked for the age at the very timestamp of the last update
    (no time elapsed): the cache has been updated, yet the age comes out
    null instead of 0.0. *)
Theorem get_age_null_at_update_instant :
  let w := with_cache init_world (update (cache init_world) 0%nat 1700000000000000) in
  v_last_update (get w 1700000000000000) = Some 1700000000000000
  /\ v_cache_age_seconds (get w 1700000000000000) = None
  /\ v_cache_age_seconds (get w 1700000000000001) = Some (0 # 10).
Proof. vm_compute. repeat split. Qed.

(** C6: [update] clears the error, adds exactly one to [refresh_count], sets
    [last_update] and makes the cache hold the new list and nothing else;
    [set_error] rebinds the error only: the list, [last_update] and both
    counters stay, as seen on the fields and through [get] and [stats]. *)
Theorem update_set_error_frame (w : world) (fresh : loc) (now later : datetime)
    (msg : string) :
  let wu := with_cache w (update (cache w) fresh now) in
  let we := with_cache w (set_error (cache w) msg) in
  (error (cache wu) = None
   /\ refresh_count (cache wu) = refresh_count (cache w) + 1
   /\ login_count (cache wu) = login_count (cache w)
   /\ last_update (cache wu) = Some now
   /\ positions (cache wu) = fresh
   /\ deref (heap wu) (v_positions (get wu later)) = deref (heap w) fresh
   /\ v_error (get wu later) = None
   /\ s_refresh_count (stats wu) = s_refresh_count (stats w) + 1)
  /\
  (error (cache we) = Some msg
   /\ positions (cache we) = positions (cache w)
   /\ last_update (cache we) = last_update (cache w)
   /\ refresh_count (cache we) = refresh_count (cache w)
   /\ login_count (cache we) = login_count (cache w)
   /\ heap we = heap w
   /\ deref (heap we) (v_positions (get we later))
      = deref (heap w) (v_positions (get w later))
   /\ v_count (get we later) = v_count (get w later)
   /\ v_last_update (get we later) = v_last_update (get w later)
   /\ v_cache_age_seconds (get we later) = v_cache_age_seconds (get w later)
   /\ s_refresh_count (stats we) = s_refresh_count (stats w)
   /\ s_login_count (stats we) = s_login_count (stats w)
   /\ s_vehicle_count (stats we) = s_vehicle_count (stats w)).
Proof. cbv zeta. split; repeat split. Qed.

(** ** Health *)

Section HealthProperties.
Context `{PyLib}.
Variable API_KEY : string.

(** What the truthiness test of the handlers accepts. *)
Lemma looks_healthy_iff (data : Stats) :
  looks_healthy data = true
  <-> s_last_update data <> None /\ (s_error data = None \/ s_error data = Some "").
Proof.
  unfold looks_healthy, truthy_text.
  destruct (s_last_update data), (s_error data) as [e|]; simpl;
    try (destruct (String.eqb_spec e ""); subst; simpl); intuition congruence.
Qed.

(** [GET /health] answers before any credential is looked at, always with
    status 200; the verdict is in the body only. *)
Lemma do_GET_health (w : world) (now : datetime) (req : request) :
  path req = "/health" ->
  do_GET API_KEY w now req
  = Ok (send_json (BHealth (if looks_healthy (stats w) then "healthy" else "unhealthy")
                           (stats w)) 200, w).
Proof. intros E. unfold do_GET. rewrite E. reflexivity. Qed.

(** [HEAD /health] puts the verdict in the status line. *)
Lemma do_HEAD_health (w : world) (req : request) :
  path req = "/health" ->
  do_HEAD w req
  = {| http_status := if looks_healthy (stats w) then 200 else 503; payload := BNone |}.
Proof. intros E. unfold do_HEAD. rewrite E. reflexivity. Qed.

End HealthProperties.

(** C4: on a cache that was never updated, [GET /health] reports "unhealthy"
    in its body but answers with status 200, where [HEAD /health] answers
    503. *)
Theorem get_health_unhealthy_is_200 :
  let req := {| path := "/health"; authorization := None |} in
  @do_GET AsciiLib.lib "secret" init_world 0 req
  = Ok ({| http_status := 200;
           payload := BHealth "unhealthy" (stats init_world) |}, init_world)
  /\ ~ spec_healthy (stats init_world)
  /\ do_HEAD init_world req = {| http_status := 503; payload := BNone |}.
Proof.
  cbv zeta. split; [reflexivity|]. split; [|reflexivity].
  intros [Hu _]. apply Hu. reflexivity.
Qed.

(** ** Filters *)

Section FilterProperties.

Lemma filter_is_sublist {A} (f : A -> bool) (l : list A) :
  sublist (List.filter f l) l.
Proof.
  induction l as [|x l IH]; simpl; [constructor|].
  destruct (f x); now constructor.
Qed.



(** On numeric speeds the test of [/positions/moving] never raises and is the
    predicate of the specification. *)
Lemma filterM_is_moving (ps : list PositionRecord) :
  Forall (fun p => is_Some (num_of (speed p))) ps ->
  filterM is_moving ps = Ok (List.filter spec_moving ps).
Proof.
  induction 1 as [|p ps [q Hq] _ IH]; [reflexivity|].
  simpl. rewrite IH.
  assert (is_moving p = Ok (spec_moving p)) as ->.
  { unfold is_moving, spec_moving, py_gt0. rewrite Hq.
    destruct (truthy (stand_still p)); reflexivity. }
  reflexivity.
Qed.

(** The only way [/positions/moving] fails: a record that stands still and
    whose speed is not a number. *)
Lemma filterM_is_moving_raises (ps : list PositionRecord) (e : pyexn) :
  filterM is_moving ps = Raise e ->
  e = TypeError
  /\ Exists (fun p => truthy (stand_still p) = true /\ num_of (speed p) = None) ps.
Proof.
  induction ps as [|p ps IH]; simpl; [discriminate|].
  destruct (is_moving p) as [b|e'] eqn:M; simpl.
  - destruct (filterM is_moving ps) as [r|e'']; simpl; [discriminate|].
    intros [= ->]. destruct (IH eq_refl) as [-> Hex]. split; [reflexivity|].
    now apply Exists_cons_tl.
  - intros [= ->]. unfold is_moving, py_gt0 in M.
    destruct (truthy (stand_still p)) eqn:T; simpl in M; [|discriminate].
    destruct (num_of (speed p)) eqn:N; [discriminate|].
    injection M as <-. split; [reflexivity|]. apply Exists_cons_hd. tauto.
Qed.

Lemma deref_alloc (h : store) (ps : list PositionRecord) :
  deref (alloc h ps).2 (alloc h ps).1 = ps.
Proof.
  unfold deref, alloc; simpl. now rewrite list_lookup_middle.
Qed.

Lemma alloc_keeps (h : store) (ps qs : list PositionRecord) (l : loc) :
  h !! l = Some qs -> (alloc h ps).2 !! l = Some qs.
Proof.
  intros E. unfold alloc; simpl. apply lookup_app_l_Some. exact E.
Qed.

Lemma send_filtered_spec (w : world) (data : Snapshot) (kept : list PositionRecord) :
  exists view w',
    send_filtered w data kept
    = ({| http_status := 200; payload := BSnapshot view kept |}, w')
    /\ v_count view = Datatypes.length kept
    /\ v_last_update view = v_last_update data
    /\ v_cache_age_seconds view = v_cache_age_seconds data
    /\ v_error view = v_error data
    /\ untouched w w'.
Proof.
  unfold send_filtered.
  pose proof (deref_alloc (heap w) kept) as D.
  pose proof (fun qs l => alloc_keeps (heap w) kept qs l) as K.
  destruct (alloc (heap w) kept) as [l h'] eqn:A. simpl in D, K |- *.
  rewrite D. do 2 eexists. split; [reflexivity|]. simpl.
  repeat split; auto.
Qed.




End FilterProperties.

(** A target whose path reads as some text was accepted by [urlparse]. *)
Lemma urlparse_accepts `{PyLib} (target : string) :
  urlparse_path target <> "" -> urlparse target = Ok tt.
Proof.
  intros Hne. unfold urlparse. destruct (url_ok target) eqn:E; [reflexivity|].
  apply urlparse_path_refused in E. contradiction.
Qed.



(** ** [GET /positions/vehicle] *)

(** C10: on [GET /positions/vehicle], a non-empty [plate] parameter selects
    the plate filter whatever [number] is (the answer is a function of
    [plate] alone); with both parameters absent or empty the answer lists
    the whole cached list and [count] is its length. *)
Theorem vehicle_plate_before_number `{PyLib} (API_KEY : string) (w : world)
    (now : datetime) (req : request) :
  path req <> "/health" ->
  check_auth API_KEY req = Ok true ->
  urlparse_path (path req) = "/positions/vehicle" ->
  let all := deref (heap w) (positions (cache w)) in
  (forall plate,
      query_first (path req) "plate" = Some plate -> plate <> "" ->
      exists view w',
        do_GET API_KEY w now req
        = Ok ({| http_status := 200;
                 payload :=
                   BSnapshot view
                     (List.filter
                        (fun p => str_contains (str_upper plate)
                                               (str_upper (license_plate p)))
                        all) |}, w')
        /\ v_count view
           = Datatypes.length
               (List.filter
                  (fun p => str_contains (str_upper plate)
                                         (str_upper (license_plate p)))
                  all))
  /\ (truthy_text (query_first (path req) "plate") = false ->
      truthy_text (query_first (path req) "number") = false ->
      exists view,
        do_GET API_KEY w now req
        = Ok ({| http_status := 200; payload := BSnapshot view all |}, w)
        /\ v_count view = Datatypes.length all).
Proof.
  intros Hpath Hauth Hurl all.
  assert (do_GET API_KEY w now req = Ok (vehicle w now req)) as ->.
  { unfold do_GET. apply String.eqb_neq in Hpath. rewrite Hpath, Hauth.
    cbn [rbind negb]. rewrite urlparse_accepts by (rewrite Hurl; discriminate).
    cbn [rbind]. rewrite Hurl. reflexivity. }
  split.
  - intros plate Hp Hne. unfold vehicle. rewrite Hp. simpl truthy_text.
    apply String.eqb_neq in Hne. rewrite Hne. simpl.
    edestruct send_filtered_spec as (v & w' & E & C & _).
    rewrite E. eauto.
  - intros Hp Hn. unfold vehicle. rewrite Hp, Hn. simpl. eauto.
Qed.

Lemma vehicle_plate_before_number_witness :
  let w := scenario_world 1700000000000000 in
  (exists view w',
      @do_GET AsciiLib.lib "" w 1700000000000060
        {| path := "/positions/vehicle?plate=ab&number=nobody"; authorization := None |}
      = Ok ({| http_status := 200;
               payload := BSnapshot view (deref (heap w) (positions (cache w))) |}, w')
      /\ v_count view = 1%nat)
  /\ (exists view,
         @do_GET AsciiLib.lib "" w 1700000000000060
           {| path := "/positions/vehicle?plate=&number="; authorization := None |}
         = Ok ({| http_status := 200;
                  payload := BSnapshot view (deref (heap w) (positions (cache w))) |}, w)
         /\ v_count view = 1%nat).
Proof.
  cbv zeta. split.
  - destruct (@vehicle_plate_before_number AsciiLib.lib ""
                (scenario_world 1700000000000000) 1700000000000060
                {| path := "/positions/vehicle?plate=ab&number=nobody";
                   authorization := None |}) as [P _];
      [discriminate | reflexivity | reflexivity |].
    destruct (P "ab") as (view & w' & E & C); [reflexivity | discriminate |].
    exists view, w'. split; [exact E | exact C].
  - destruct (@vehicle_plate_before_number AsciiLib.lib ""
                (scenario_world 1700000000000000) 1700000000000060
                {| path := "/positions/vehicle?plate=&number=";
                   authorization := None |}) as [_ F];
      [discriminate | reflexivity | reflexivity |].
    destruct F as (view & E & C); [reflexivity | reflexivity |].
    exists view. split; [exact E | exact C].
Defined.

(** ** Authentication *)

Section AuthProperties.
Context `{PyLib}.
Variable API_KEY : string.




(** After a successful check [do_GET] never answers 401. *)
Lemma do_GET_authorized_not_401 (w w' : world) (now : datetime) (req : request)
    (r : response) :
  path req <> "/health" ->
  check_auth API_KEY req = Ok true ->
  do_GET API_KEY w now req = Ok (r, w') ->
  http_status r <> 401.
Proof.
  intros Hp Ha. unfold do_GET. apply String.eqb_neq in Hp. rewrite Hp, Ha.
  cbn [rbind negb]. unfold urlparse.
  destruct (url_ok (path req)); cbn [rbind]; [|discriminate]. simpl.
  repeat match goal with
         | |- context [if ?b then _ else _] => destruct b
         end; try (intros [= <- _]; discriminate).
  - unfold vehicle.
    repeat match goal with
           | |- context [if ?b then _ else _] => destruct b
           end;
      try (edestruct send_filtered_spec as (v & w1 & E & _); rewrite E);
      intros [= <- _]; discriminate.
  - unfold moving. destruct (filterM _ _); simpl; [|discriminate].
    edestruct send_filtered_spec as (v & w1 & E & _); rewrite E.
    intros [= <- _]; discriminate.
Qed.

End AuthProperties.


(** ** Reconciliation *)

Section ValueProperties.

Lemma py_eqb_sym (a b : pyval) : py_eqb a b = py_eqb b a.
Proof.
  destruct a, b; simpl; try reflexivity; try apply Qeq_bool_comm.
  apply String.eqb_sym.
Qed.

Lemma py_eqb_num (a b : pyval) :
  py_eqb a b = true ->
  (a = PNone /\ b = PNone)
  \/ (exists s, a = PStr s /\ b = PStr s)
  \/ (exists x y, num_of a = Some x /\ num_of b = Some y /\ (x == y)%Q).
Proof.
  destruct a, b; simpl; try discriminate; intros E;
    try (right; right; do 2 eexists; repeat split; now apply Qeq_bool_iff).
  - now left.
  - right; left. apply String.eqb_eq in E. subst. eauto.
Qed.

Lemma py_eqb_trans (a b c : pyval) :
  py_eqb a b = true -> py_eqb b c = true -> py_eqb a c = true.
Proof.
  intros [[-> ->]|[(s & -> & ->)|(x & y & Ha & Hb & Exy)]]%py_eqb_num Hbc;
    [exact Hbc | exact Hbc |].
  apply py_eqb_num in Hbc as [[-> ->]|[(s & -> & ->)|(y' & z & Hb' & Hc & Eyz)]];
    try discriminate.
  rewrite Hb in Hb'. injection Hb' as <-.
  assert (Qeq_bool x z = true) as Exz.
  { apply Qeq_bool_iff. now rewrite Exy. }
  destruct a, c; simpl in *; try discriminate;
    injection Ha as <-; injection Hc as <-; exact Exz.
Qed.

Lemma py_eqb_refl (k : pyval) : hashable k = true -> py_eqb k k = true.
Proof.
  destruct k; simpl; try discriminate; intros _; try reflexivity;
    try (apply Qeq_bool_iff; reflexivity).
  apply String.eqb_refl.
Qed.

(** Reading the index after a store. *)
Lemma dict_find_set (m : pydict) (k v k' : pyval) :
  dict_find (dict_set m k v) k' = if py_eqb k k' then Some v else dict_find m k'.
Proof.
  induction m as [|[k0 v0] m IH]; simpl; [reflexivity|].
  destruct (py_eqb k0 k) eqn:E0; simpl.
  - destruct (py_eqb k k') eqn:E1.
    + now rewrite (py_eqb_trans _ _ _ E0 E1).
    + destruct (py_eqb k0 k') eqn:E2; [|reflexivity].
      rewrite py_eqb_sym in E0. rewrite (py_eqb_trans _ _ _ E0 E2) in E1.
      discriminate.
  - rewrite IH. destruct (py_eqb k0 k') eqn:E2; [|reflexivity].
    destruct (py_eqb k k') eqn:E1; [|reflexivity].
    rewrite py_eqb_sym in E1. rewrite (py_eqb_trans _ _ _ E2 E1) in E0.
    discriminate.
Qed.

Lemma dict_set_values (P : pyval -> Prop) (m : pydict) (k v : pyval) :
  Forall (fun kv => P kv.2) m -> P v -> Forall (fun kv => P kv.2) (dict_set m k v).
Proof.
  intros Hm Hv. induction Hm as [|[k0 v0] m H0 Hm IH]; simpl.
  - repeat constructor. exact Hv.
  - destruct (py_eqb k0 k); constructor; auto.
Qed.

Lemma dict_find_values (P : pyval -> Prop) (m : pydict) (k v : pyval) :
  Forall (fun kv => P kv.2) m -> dict_find m k = Some v -> P v.
Proof.
  induction 1 as [|[k0 v0] m H0 Hm IH]; simpl; [discriminate|].
  destruct (py_eqb k0 k); [intros [= <-]; exact H0 | exact IH].
Qed.

Lemma rbind_Ok {A B} (m : result A) (k : A -> result B) (b : B) :
  rbind m k = Ok b <-> exists a, m = Ok a /\ k a = Ok b.
Proof.
  destruct m as [a|e]; simpl; split.
  - eauto.
  - now intros (a' & [= <-] & E).
  - discriminate.
  - now intros (a' & [=] & _).
Qed.

Lemma mapM_Ok {A B} (f : A -> result B) (l : list A) (rs : list B) :
  mapM f l = Ok rs <-> Forall2 (fun x y => f x = Ok y) l rs.
Proof.
  revert rs. induction l as [|x l IH]; intros rs; simpl.
  - split; [intros [= <-]; constructor | now inversion 1].
  - rewrite rbind_Ok. split.
    + intros (y & Ey & (ys & Eys & [= <-])%rbind_Ok).
      constructor; [exact Ey | now apply IH].
    + inversion 1 as [|? y ? ys Ey Hys]; subst. exists y. split; [exact Ey|].
      apply rbind_Ok. exists ys. split; [now apply IH | reflexivity].
Qed.

Lemma mapM_total {A B} (f : A -> result B) (l : list A) :
  Forall (fun x => exists y, f x = Ok y) l -> exists rs, mapM f l = Ok rs.
Proof.
  induction 1 as [|x l [y Ey] _ [ys Eys]]; simpl; [eauto|].
  rewrite Ey, Eys. simpl. eauto.
Qed.

(** The entry the index holds for a key: the last record carrying it. *)
Lemma build_telem_map_find (ts : list pyval) (m m' : pydict) (k : pyval) :
  build_telem_map m ts = Ok m' ->
  dict_find m' k
  = match last_match ts k with
    | Some t => Some t
    | None => dict_find m k
    end.
Proof.
  revert m. induction ts as [|t ts IH]; intros m; simpl.
  - now intros [= <-].
  - intros (k0 & E0 & E)%rbind_Ok.
    destruct (hashable k0); [|discriminate].
    rewrite (IH _ E), dict_find_set.
    destruct (last_match ts k); [reflexivity|].
    unfold has_id. destruct t as [| | | | | |d]; simpl in E0; try discriminate.
    destruct (d !! "objectId") as [k1|]; [|discriminate].
    injection E0 as ->. now destruct (py_eqb k0 k).
Qed.

Lemma build_telem_map_values (P : pyval -> Prop) (ts : list pyval) (m m' : pydict) :
  Forall P ts -> Forall (fun kv => P kv.2) m ->
  build_telem_map m ts = Ok m' -> Forall (fun kv => P kv.2) m'.
Proof.
  intros Hts. revert m. induction Hts as [|t ts Ht _ IH]; intros m Hm; simpl.
  - now intros [= <-].
  - intros (k0 & E0 & E)%rbind_Ok.
    destruct (hashable k0); [|discriminate].
    eapply IH; [|exact E]. now apply dict_set_values.
Qed.

Lemma build_telem_map_total (ts : list pyval) (m : pydict) :
  Forall (fun t => wf_telemetry t = true) ts -> exists m', build_telem_map m ts = Ok m'.
Proof.
  intros Hts. revert m. induction Hts as [|t ts Ht _ IH]; intros m; simpl; [eauto|].
  unfold wf_telemetry in Ht. destruct t as [| | | | | |d]; try discriminate.
  simpl. destruct (d !! "objectId") as [k|]; [|discriminate]. simpl.
  apply andb_true_iff in Ht as [-> _]. apply IH.
Qed.

End ValueProperties.

Section ReconcileProperties.
Context `{PyLib}.

Ltac step_bind E :=
  cbn [rbind py_get py_getitem dict_get resolve_pos py_strip] in E.

(** What a record holds when the loop body succeeds on an object. *)
Lemma position_of_Ok (m : pydict) (obj : pyval) (r : PositionRecord) :
  position_of m obj = Ok r ->
  exists d k t,
    obj = PDict d /\ d !! "objectId" = Some k /\ hashable k = true
    /\ default (PDict ∅) (dict_find m k) = PDict t
    /\ object_fields d r /\ telemetry_fields t r /\ position_fields d t r.
Proof.
  intros E. unfold position_of in E.
  destruct obj as [| | | | | |d]; try discriminate. step_bind E.
  destruct (d !! "objectId") as [k|] eqn:Ek; [|discriminate]. step_bind E.
  unfold dict_get in E.
  destruct (hashable k) eqn:Hk; step_bind E; [|discriminate].
  destruct (default (PDict ∅) (dict_find m k)) as [| | | | | |t] eqn:Et;
    step_bind E; try discriminate.
  exists d, k, t. repeat split; try reflexivity.
  all: unfold object_fields, telemetry_fields, position_fields, resolved_position.
  all: destruct (default (PStr "") (d !! "licensePlate")) as [| | | |plate| |] eqn:Ep;
    try discriminate; step_bind E.
  all: set (pos := py_or (default (default (PDict ∅) (d !! "position")) (t !! "position"))
                         (PDict ∅)) in *.
  all: destruct pos as [| | | | | |p] eqn:Epos; cbn [is_dict rbind py_get] in E.
  all: try (destruct (default (PDict ∅) (d !! "locationDescription"))
              as [| | | | | |ld] eqn:Eld; try discriminate;
            cbn [rbind py_get truthy] in E).
  all: try (destruct (default (PDict ∅) (p !! "location"))
              as [| | | | | |loc] eqn:Eloc; try discriminate;
            cbn [rbind py_get] in E).
  all: try (destruct (truthy (default PNone (p !! "time"))) eqn:Tt;
            cbn [rbind py_get] in E).
  all: apply rbind_Ok in E as (km & Ekm & [= <-]); cbn.
  all: try (unfold py_or; rewrite Tt).
  all: try solve [repeat split; eauto].
  all: try solve [unfold py_div100 in Ekm;
                  destruct (default (PInt 0) (d !! "odometer")); try discriminate;
                  try (destruct (Qle_bool _ _); try discriminate);
                  injection Ekm as <-; eexists; split; reflexivity].
Qed.

Lemma resolved_position_location (d t p : gmap string pyval) :
  wf_position (d !! "position") = true ->
  wf_position (t !! "position") = true ->
  resolved_position d t = PDict p ->
  exists loc, default (PDict ∅) (p !! "location") = PDict loc.
Proof.
  assert (forall v, wf_position (Some v) = true -> py_or v (PDict ∅) = PDict p ->
                    exists loc, default (PDict ∅) (p !! "location") = PDict loc) as Hv.
  { intros v Hw. unfold py_or. destruct (truthy v).
    - intros ->. simpl in Hw.
      destruct (p !! "location") as [[| | | | | |loc]|]; try discriminate;
        simpl; eauto.
    - intros [= <-]. rewrite lookup_empty. simpl. eauto. }
  intros Hd Ht. unfold resolved_position.
  destruct (t !! "position") as [v|]; simpl; [now apply Hv|].
  destruct (d !! "position") as [v|]; simpl; [now apply Hv|].
  apply Hv. reflexivity.
Qed.

(** On well-formed payloads the loop body cannot fail. *)
Lemma position_of_total (m : pydict) (obj : pyval) :
  wf_object obj = true ->
  Forall (fun kv => wf_telemetry kv.2 = true) m ->
  exists r, position_of m obj = Ok r.
Proof.
  intros Hobj Hm. destruct obj as [| | | | | |d]; try discriminate.
  unfold wf_object in Hobj.
  destruct (d !! "objectId") as [k|] eqn:Ek; [|discriminate].
  apply andb_true_iff in Hobj as [Hobj Hdescr].
  apply andb_true_iff in Hobj as [Hobj Hpos].
  apply andb_true_iff in Hobj as [Hobj Hodo].
  apply andb_true_iff in Hobj as [Hk Hplate].
  assert (exists t, default (PDict ∅) (dict_find m k) = PDict t
                    /\ wf_position (t !! "position") = true) as (t & Et & Htpos).
  { destruct (dict_find m k) as [v|] eqn:Ef; simpl.
    - pose proof (dict_find_values (fun v => wf_telemetry v = true) m k v Hm Ef) as Hw.
      destruct v as [| | | | | |t]; try discriminate. exists t. split; [reflexivity|].
      simpl in Hw. now apply andb_true_iff in Hw as [_ ?].
    - exists ∅. split; [reflexivity|]. now rewrite lookup_empty. }
  assert (exists plate, default (PStr "") (d !! "licensePlate") = PStr plate)
    as (plate & Eplate).
  { destruct (d !! "licensePlate") as [[| | | |s| |]|]; try discriminate; simpl; eauto. }
  assert (exists km, py_div100 (default (PInt 0) (d !! "odometer")) = Ok km)
    as (km & Ekm).
  { unfold wf_odometer in Hodo.
    destruct (d !! "odometer") as [[|b|z|q|s|l|d']|]; try discriminate;
      cbn [default from_option id]; unfold py_div100; eauto.
    apply negb_true_iff in Hodo. cbv zeta. rewrite Hodo. eauto. }
  unfold position_of.
  cbn [rbind py_get py_getitem]. rewrite Ek. cbn [rbind].
  unfold dict_get. rewrite Hk, Et. cbn [rbind resolve_pos py_get].
  rewrite Eplate, Ekm. cbn [rbind py_strip default from_option id].
  fold (resolved_position d t).
  destruct (resolved_position d t) as [| | | | | |p] eqn:Epos; cbn [is_dict rbind py_get].
  7: { destruct (resolved_position_location d t p Hpos Htpos Epos) as (loc & ->).
       cbn [rbind py_get]. destruct (truthy _); cbn [rbind]; eauto. }
  all: destruct (d !! "locationDescription") as [[| | | | | |ld]|];
    try discriminate; cbn [default from_option id rbind py_get truthy]; eauto.
Qed.

End ReconcileProperties.

Section ReconcileTheorems.
Context `{PyLib}.

Lemma telem_of_find (ts : list pyval) (m : pydict) (k : pyval) (t : gmap string pyval) :
  build_telem_map [] ts = Ok m ->
  default (PDict ∅) (dict_find m k) = PDict t ->
  telem_of ts k = t.
Proof.
  intros Em. rewrite (build_telem_map_find ts [] m k Em). unfold telem_of.
  destruct (last_match ts k) as [v|]; simpl.
  - now intros ->.
  - now intros [= <-].
Qed.

(** Every record of a successful reconciliation is described by its object
    and by the last telemetry record carrying the object's key. *)
Lemma reconcile_Ok (objs ts : list pyval) (rs : list PositionRecord) :
  reconcile (PList objs) (PList ts) = Ok rs ->
  Forall2 (described_by ts) objs rs.
Proof.
  unfold reconcile. destruct objs as [|o objs']; [intros [= <-]; constructor|].
  set (objs := o :: objs'). cbn [truthy negb py_iter rbind].
  intros (m & Em & E)%rbind_Ok. cbn [rbind] in E. apply mapM_Ok in E.
  eapply Forall2_impl; [exact E|]. intros obj r Er. cbn beta in Er.
  apply position_of_Ok in Er as (d & k & t & -> & Ek & Hk & Et & Ho & Ht & Hp).
  rewrite <- (telem_of_find ts m k t Em Et) in Ht, Hp.
  exists d, k. exact (conj eq_refl (conj Ek (conj Hk (conj Ho (conj Ht Hp))))).
Qed.

Lemma reconcile_total (objs ts : list pyval) :
  Forall (fun o => wf_object o = true) objs ->
  Forall (fun t => wf_telemetry t = true) ts ->
  exists rs, reconcile (PList objs) (PList ts) = Ok rs.
Proof.
  intros Ho Ht. unfold reconcile. destruct objs as [|o objs']; [simpl; eauto|].
  set (objs := o :: objs') in *. cbn [truthy negb py_iter rbind].
  destruct (build_telem_map_total ts [] Ht) as [m Em]. rewrite Em. cbn [rbind].
  apply mapM_total. eapply Forall_impl; [exact Ho|]. intros obj Hobj.
  apply position_of_total; [exact Hobj|].
  exact (build_telem_map_values (fun t => wf_telemetry t = true) ts [] m Ht
           (Forall_nil_2 _) Em).
Qed.

Lemma described_ids (objs ts : list pyval) (rs : list PositionRecord) :
  Forall2 (described_by ts) objs rs -> ids_of objs = object_id <$> rs.
Proof.
  induction 1 as [|obj r objs rs (d & k & -> & Ek & _ & (Eid & _) & _) _ IH];
    [reflexivity|].
  unfold ids_of in *. cbn [omap list_omap fmap list_fmap]. rewrite Ek.
  rewrite Ek in Eid. injection Eid as ->. now rewrite <- IH.
Qed.

Lemma described_hashable (objs ts : list pyval) (rs : list PositionRecord) :
  Forall2 (described_by ts) objs rs -> Forall (fun k => hashable k = true) (ids_of objs).
Proof.
  induction 1 as [|obj r objs rs (d & k & -> & Ek & Hk & _) _ IH];
    [constructor|].
  unfold ids_of in *. cbn [omap list_omap]. rewrite Ek. now constructor.
Qed.

Lemma distinct_ids_one_record (objs ts : list pyval) (rs : list PositionRecord) :
  Forall2 (described_by ts) objs rs ->
  distinct_ids objs -> one_per_distinct_id objs rs.
Proof.
  intros D Hdist k Hin.
  pose proof (described_ids objs ts rs D) as Eids.
  pose proof (described_hashable objs ts rs D) as Hh.
  apply list_elem_of_lookup in Hin as [i Hi].
  assert (hashable k = true) as Hk.
  { rewrite Forall_forall in Hh. apply Hh. apply list_elem_of_lookup. eauto. }
  exists i. split.
  - rewrite Eids, list_lookup_fmap in Hi.
    destruct (rs !! i) as [r|]; [|discriminate]. injection Hi as Hi.
    exists r. split; [reflexivity|]. rewrite Hi. now apply py_eqb_refl.
  - intros j r Hj Hjk. apply (Hdist j i (object_id r) k); [|exact Hi|exact Hjk].
    rewrite Eids, list_lookup_fmap, Hj. reflexivity.
Qed.

Lemma build_telem_map_keys (ts : list pyval) (m m' : pydict) :
  build_telem_map m ts = Ok m' -> Forall (fun t => has_key t = true) ts.
Proof.
  revert m. induction ts as [|t ts IH]; intros m; simpl; [constructor|].
  intros (k & Ek & E)%rbind_Ok.
  destruct (hashable k) eqn:Hk; [|discriminate].
  constructor; [|exact (IH _ E)].
  destruct t as [| | | | | |d]; simpl in Ek; try discriminate.
  simpl. destruct (d !! "objectId"); [|discriminate]. now injection Ek as ->.
Qed.

Lemma last_match_dict (ts : list pyval) (k t : pyval) :
  last_match ts k = Some t -> exists td, t = PDict td.
Proof.
  induction ts as [|t0 ts IH]; simpl; [discriminate|].
  destruct (last_match ts k); [exact IH|].
  destruct (has_id t0 k) eqn:E; [|discriminate]. intros [= <-].
  destruct t0; try discriminate. eauto.
Qed.

(** What the index gives for a key: the fields of the matching record. *)
Lemma telem_found (ts : list pyval) (m : pydict) (k : pyval) :
  build_telem_map [] ts = Ok m ->
  default (PDict ∅) (dict_find m k) = PDict (telem_of ts k).
Proof.
  intros Em. rewrite (build_telem_map_find ts [] m k Em). unfold telem_of.
  destruct (last_match ts k) as [t|] eqn:E; [|reflexivity].
  destruct (last_match_dict ts k t E) as [td ->]. reflexivity.
Qed.

Lemma build_telem_map_total_keys (ts : list pyval) (m : pydict) :
  Forall (fun t => has_key t = true) ts -> exists m', build_telem_map m ts = Ok m'.
Proof.
  intros Hts. revert m. induction Hts as [|t ts Ht _ IH]; intros m; simpl; [eauto|].
  destruct t as [| | | | | |d]; try discriminate. simpl in Ht |- *.
  destruct (d !! "objectId") as [k|]; [|discriminate]. simpl. rewrite Ht. apply IH.
Qed.

Lemma py_div100_wf (v : option pyval) :
  (exists km, py_div100 (default (PInt 0) v) = Ok km) <-> wf_odometer v = true.
Proof.
  unfold wf_odometer, py_div100.
  destruct v as [[|b|z|q|s|l|d]|]; cbn [default from_option id]; cbv zeta.
  all: try (split; [reflexivity | eauto]).
  all: try (split; [intros [km [=]] | discriminate]).
  - destruct (Qle_bool float_limit (Qabs (inject_Z z / 100))); cbn [negb];
      split; eauto; try discriminate. intros [km [=]].
Qed.

(** The loop body succeeds on exactly the accepted objects. *)
Lemma position_of_accepted (ts : list pyval) (m : pydict) (obj : pyval) :
  build_telem_map [] ts = Ok m ->
  (exists r, position_of m obj = Ok r) <-> accepted_object ts obj = true.
Proof.
  intros Em. split.
  - intros [r E]. pose proof E as E0.
    apply position_of_Ok in E as (d & k & t & -> & Ek & Hk & Et & Ho & _ & Hp).
    rewrite (telem_found ts m k Em) in Et. injection Et as <-.
    unfold accepted_object. rewrite Ek, Hk. cbn [andb].
    destruct Ho as (_ & _ & _ & (plate & Eplate & _) & _ & _).
    assert (wf_odometer (d !! "odometer") = true) as ->.
    { apply py_div100_wf. unfold position_of in E0.
      repeat (apply rbind_Ok in E0 as (? & ? & E0)).
      match goal with
      | Hodo : py_get (PDict d) "odometer" _ = Ok ?x, Hkm : py_div100 ?x = Ok ?km |- _ =>
          cbn [py_get] in Hodo; injection Hodo as <-; exists km; exact Hkm
      end. }
    assert (match d !! "licensePlate" with
            | None | Some (PStr _) => true
            | _ => false
            end = true) as ->.
    { destruct (d !! "licensePlate") as [[| | | | | |]|]; cbn in Eplate;
        try discriminate; reflexivity. }
    cbn [andb]. unfold position_fields in Hp.
    destruct (resolved_position d (telem_of ts k)) as [| | | | | |p];
      destruct Hp as (_ & _ & (x & Ex & _) & _);
      match goal with
      | |- match ?o with _ => _ end = true =>
          destruct o as [[| | | | | |]|]; cbn in Ex; try discriminate; reflexivity
      end.
  - intros Hacc. destruct obj as [| | | | | |d]; try discriminate.
    unfold accepted_object in Hacc.
    destruct (d !! "objectId") as [k|] eqn:Ek; [|discriminate].
    apply andb_true_iff in Hacc as [Hacc Haddr].
    apply andb_true_iff in Hacc as [Hacc Hodo].
    apply andb_true_iff in Hacc as [Hk Hplate].
    pose proof (telem_found ts m k Em) as Et.
    assert (exists plate, default (PStr "") (d !! "licensePlate") = PStr plate)
      as (plate & Eplate).
    { destruct (d !! "licensePlate") as [[| | | |s| |]|]; try discriminate;
        simpl; eauto. }
    apply py_div100_wf in Hodo as (km & Ekm).
    unfold position_of.
    cbn [rbind py_get py_getitem]. rewrite Ek. cbn [rbind].
    unfold dict_get. rewrite Hk, Et. cbn [rbind resolve_pos py_get].
    rewrite Eplate, Ekm. cbn [rbind py_strip default from_option id].
    fold (resolved_position d (telem_of ts k)).
    destruct (resolved_position d (telem_of ts k)) as [| | | | | |p];
      cbn [is_dict rbind py_get].
    7: { destruct (p !! "location") as [[| | | | | |loc]|]; try discriminate;
           cbn [default from_option id rbind py_get];
           destruct (truthy _); cbn [rbind]; eauto. }
    all: destruct (d !! "locationDescription") as [[| | | | | |ld]|];
      try discriminate; cbn [default from_option id rbind py_get truthy]; eauto.
Qed.

(** The reconciliation returns on exactly these payloads. *)
Lemma reconcile_returns_iff (objs ts : list pyval) :
  (exists rs, reconcile (PList objs) (PList ts) = Ok rs)
  <-> objs = []
      \/ (Forall (fun t => has_key t = true) ts
          /\ Forall (fun o => accepted_object ts o = true) objs).
Proof.
  destruct objs as [|o objs']; [split; [now left | intros _; now exists []]|].
  set (objs := o :: objs'). unfold reconcile. cbn [truthy negb py_iter rbind].
  split.
  - intros [rs (m & Em & E)%rbind_Ok]. cbn [rbind] in E. right. split.
    + exact (build_telem_map_keys ts [] m Em).
    + apply mapM_Ok in E. apply Forall_forall. intros obj Hin.
      apply (position_of_accepted ts m obj Em).
      apply list_elem_of_lookup in Hin as [i Hi].
      destruct (Forall2_lookup_l _ _ _ _ _ E Hi) as (r & _ & Er). eauto.
  - intros [?|[Ht Ho]]; [discriminate|].
    destruct (build_telem_map_total_keys ts [] Ht) as [m Em]. rewrite Em. cbn [rbind].
    apply mapM_total. eapply Forall_impl; [exact Ho|]. intros obj Hobj.
    now apply (position_of_accepted ts m obj Em).
Qed.

End ReconcileTheorems.



(** C3: when every telemetry record is a dict with a hashable [objectId]
    and every object is accepted, the reconciliation returns one record per
    entry of the object list, in its order: the i-th record carries the i-th
    object's [objectId] and its [odometer] divided by 100 as a float; when no
    telemetry record matches, it takes the telemetry defaults and resolves
    coordinates, address and GPS time from the object alone.  When the
    [objectId]s are pairwise distinct there is exactly one record per
    [objectId]. *)
Theorem one_record_per_object `{PyLib} (objs ts : list pyval) :
  Forall (fun t => has_key t = true) ts ->
  Forall (fun o => accepted_object ts o = true) objs ->
  exists rs,
    reconcile (PList objs) (PList ts) = Ok rs
    /\ Datatypes.length rs = Datatypes.length objs
    /\ Forall2 (fun obj r =>
                  exists d k q,
                    obj = PDict d /\ d !! "objectId" = Some k
                    /\ object_id r = k
                    /\ num_of (default (PInt 0) (d !! "odometer")) = Some q
                    /\ odometer_km r = float_round (q / 100)
                    /\ (last_match ts k = None ->
                        speed r = PInt 0 /\ ignition r = PStr "UNKNOWN"
                        /\ stand_still r = PBool false
                        /\ position_fields d ∅ r))
               objs rs
    /\ (distinct_ids objs -> one_per_distinct_id objs rs).
Proof.
  intros Ht Ho.
  destruct (proj2 (reconcile_returns_iff objs ts) (or_intror (conj Ht Ho))) as [rs E].
  pose proof (reconcile_Ok objs ts rs E) as D.
  exists rs. split; [exact E|]. split; [symmetry; exact (Forall2_length _ _ _ D)|].
  split; [|exact (distinct_ids_one_record objs ts rs D)].
  eapply Forall2_impl; [exact D|].
  intros obj r (d & k & -> & Ek & _ & (Eid & _ & _ & _ & _ & q & Eq & Ekm)
                & (Es & Ei & Est) & Hp).
  exists d, k, q. split; [reflexivity|]. split; [exact Ek|].
  split; [rewrite Ek in Eid; congruence|]. split; [exact Eq|]. split; [exact Ekm|].
  intros Hnone. rewrite Es, Ei, Est. unfold telem_of in *. rewrite Hnone in *.
  now rewrite !lookup_empty.
Qed.

(** C9: with no objects captured (the key missing, null or an empty list),
    [get_positions] returns the empty list whatever was captured as
    telemetry. *)
Theorem get_positions_without_objects `{PyLib} (intercepted_data : gmap string pyval) :
  intercepted_data !! "objects" = None
  \/ intercepted_data !! "objects" = Some PNone
  \/ intercepted_data !! "objects" = Some (PList []) ->
  get_positions intercepted_data = Ok [].
Proof.
  intros [E|[E|E]]; unfold get_positions, captured; rewrite E; reflexivity.
Qed.

(** ** The theorems at concrete payloads *)



Lemma one_record_per_object_witness :
  exists rs,
    @reconcile AsciiLib.lib (PList fleet_objects) (PList fleet_telemetry) = Ok rs
    /\ Datatypes.length rs = 3%nat.
Proof.
  destruct (@one_record_per_object AsciiLib.lib fleet_objects fleet_telemetry)
    as (rs & E & L & _).
  - repeat (apply Forall_cons_2; [vm_compute; reflexivity|]). apply Forall_nil_2.
  - repeat (apply Forall_cons_2; [vm_compute; reflexivity|]). apply Forall_nil_2.
  - exists rs. split; [exact E | exact L].
Defined.

Lemma get_positions_without_objects_witness :
  @get_positions AsciiLib.lib
     (list_to_map [("objects", PNone);
                   ("telemetry", PList [jdict [("speed", PInt 7)]; PInt 5])])
  = Ok [].
Proof.
  apply (@get_positions_without_objects AsciiLib.lib).
  right. left. vm_compute. reflexivity.
Defined.


(** ** Where the specification and the program part *)



(** C3: two entries of the object list with the same [objectId] give two
    records for it. *)
Lemma duplicate_ids_give_two_records :
  let objs := [jdict [("objectId", PStr "A1")]; jdict [("objectId", PStr "A1")]] in
  exists rs,
    @reconcile AsciiLib.lib (PList objs) (PList []) = Ok rs
    /\ Datatypes.length rs = 2%nat
    /\ ~ one_per_distinct_id objs rs.
Proof.
  cbv zeta. eexists. split; [vm_compute; reflexivity|]. split; [reflexivity|].
  intros Hone. destruct (Hone (PStr "A1")) as (i & _ & Huniq).
  { vm_compute. left. }
  pose proof (Huniq 0%nat _ eq_refl eq_refl) as H0.
  pose proof (Huniq 1%nat _ eq_refl eq_refl) as H1.
  congruence.
Qed.



(** ** The scenarios of the specification *)

(** One object and its telemetry: the record, and the filters on it. *)
Example scenario_reconciled :
  exists r,
    @reconcile AsciiLib.lib scenario_objects scenario_telemetry = Ok [r]
    /\ object_id r = PStr "A1" /\ license_plate r = "AB-123"
    /\ speed r = PInt 42 /\ stand_still r = PBool false
    /\ odometer_km r = (15050 / 100)%Q
    /\ is_moving r = Ok true /\ is_stopped r = false.
Proof. eexists. vm_compute. repeat split. Qed.

(** A wrong bearer token is refused, the right key in the query passes. *)
Example scenario_auth :
  @do_GET AsciiLib.lib "secret" init_world 0
     {| path := "/positions"; authorization := Some "Bearer wrong" |}
  = Ok ({| http_status := 401; payload := BError unauthorized_message |}, init_world)
  /\ exists view,
       @do_GET AsciiLib.lib "secret" init_world 0
          {| path := "/positions?api_key=secret"; authorization := None |}
       = Ok ({| http_status := 200; payload := BSnapshot view [] |}, init_world).
Proof. split; [reflexivity|]. eexists. reflexivity. Qed.

(** The three health cases. *)
Example scenario_health :
  looks_healthy {| s_login_count := 1; s_refresh_count := 1; s_vehicle_count := 0;
                   s_last_update := Some 5; s_error := None |} = true
  /\ looks_healthy {| s_login_count := 1; s_refresh_count := 1; s_vehicle_count := 0;
                      s_last_update := Some 5; s_error := Some "x" |} = false
  /\ looks_healthy {| s_login_count := 0; s_refresh_count := 0; s_vehicle_count := 0;
                      s_last_update := None; s_error := None |} = false.
Proof. repeat split. Qed.

(** The readings of the library interface on a request target. *)
Example query_first_ok :
  AsciiLib.first_value "/positions/vehicle?plate=&number=7&number=8#x" "number" = Some "7"
  /\ AsciiLib.first_value "/positions/vehicle?plate=&number=7" "plate" = None
  /\ AsciiLib.url_path "/positions/vehicle?plate=&number=7" = "/positions/vehicle".
Proof. vm_compute. repeat split. Qed.

(** * Further properties of the handlers, the cache and the supervisor *)

Section MoreAuth.
Context `{PyLib}.
Variable API_KEY : string.

Lemma compare_digest_true (a b : string) : compare_digest a b = Ok true -> a = b.
Proof.
  unfold compare_digest. destruct (is_ascii a && is_ascii b); [|discriminate].
  intros [= E]. now apply String.eqb_eq.
Qed.

Lemma compare_digest_raises (a b : string) (e : pyexn) :
  compare_digest a b = Raise e ->
  e = TypeError /\ (is_ascii a = false \/ is_ascii b = false).
Proof.
  unfold compare_digest. destruct (is_ascii a) eqn:A, (is_ascii b) eqn:B; simpl;
    try discriminate; intros [= <-]; auto.
Qed.

(** The check never says yes to a request that does not carry the key. *)
Lemma check_auth_sound (req : request) :
  API_KEY <> "" -> check_auth API_KEY req = Ok true ->
  credentials_accepted API_KEY req.
Proof.
  intros Hne. unfold check_auth, credentials_accepted, bearer_token.
  apply String.eqb_neq in Hne. rewrite Hne.
  remember (str_drop 7 (default "" (authorization req))) as tok eqn:Etok. clear Etok.
  assert ((let* parsed := urlparse (path req) in
           let* by_param :=
             if truthy_text (query_first (path req) "api_key")
             then compare_digest (default "" (query_first (path req) "api_key")) API_KEY
             else Ok false in Ok by_param) = Ok true ->
          query_first (path req) "api_key" = Some API_KEY) as Param.
  { destruct (urlparse (path req)); cbn [rbind]; [|discriminate].
    destruct (query_first (path req) "api_key") as [k|];
      cbn [truthy_text default from_option id]; [|discriminate].
    destruct (negb (k =? "")); [|discriminate].
    destruct (compare_digest k API_KEY) as [[|]|] eqn:C; cbn [rbind]; try discriminate.
    intros _. now rewrite (compare_digest_true _ _ C). }
  destruct (String.prefix "Bearer " (default "" (authorization req))).
  - destruct (compare_digest tok API_KEY) as [[|]|] eqn:C; cbn [rbind];
      try discriminate.
    + intros _. left. now rewrite (compare_digest_true _ _ C).
    + intros E. right. now apply Param.
  - cbn [rbind]. intros E. right. now apply Param.
Qed.

(** The check raises [TypeError] only on a credential, or a key, outside
    ASCII. *)
Lemma check_auth_raises (req : request) :
  check_auth API_KEY req = Raise TypeError ->
  is_ascii API_KEY = false
  \/ (exists t, bearer_token req = Some t /\ is_ascii t = false)
  \/ (exists k, query_first (path req) "api_key" = Some k /\ is_ascii k = false).
Proof.
  unfold check_auth, bearer_token.
  destruct (API_KEY =? ""); [discriminate|].
  remember (str_drop 7 (default "" (authorization req))) as tok eqn:Etok. clear Etok.
  assert ((let* parsed := urlparse (path req) in
           let* by_param :=
             if truthy_text (query_first (path req) "api_key")
             then compare_digest (default "" (query_first (path req) "api_key")) API_KEY
             else Ok false in Ok by_param) = Raise TypeError ->
          is_ascii API_KEY = false
          \/ exists k, query_first (path req) "api_key" = Some k
                       /\ is_ascii k = false) as Param.
  { unfold urlparse. destruct (url_ok (path req)); cbn [rbind]; [|discriminate].
    destruct (query_first (path req) "api_key") as [k|];
      cbn [truthy_text default from_option id]; [|discriminate].
    destruct (negb (k =? "")); [|discriminate].
    destruct (compare_digest k API_KEY) as [b|e'] eqn:C; cbn [rbind]; [discriminate|].
    intros _. destruct (compare_digest_raises _ _ _ C) as [_ [A|A]]; eauto. }
  destruct (String.prefix "Bearer " (default "" (authorization req))).
  - destruct (compare_digest tok API_KEY) as [[|]|e'] eqn:C; cbn [rbind];
      try discriminate.
    + intros E. destruct (Param E) as [A|A]; auto.
    + intros _. destruct (compare_digest_raises _ _ _ C) as [_ [A|A]]; eauto.
  - cbn [rbind]. intros E. destruct (Param E) as [A|A]; auto.
Qed.

(** What [do_GET] does once the health route is passed. *)
Lemma do_GET_off_health (w : world) (now : datetime) (req : request) :
  path req <> "/health" ->
  do_GET API_KEY w now req
  = let* authorized := check_auth API_KEY req in
    if negb authorized then Ok (send_json (BError unauthorized_message) 401, w)
    else
      let* parsed := urlparse (path req) in
      let p := urlparse_path (path req) in
      if String.eqb p "/positions" || String.eqb p "/" then
        let data := get w now in
        Ok (send_json (BSnapshot data (deref (heap w) (v_positions data))) 200, w)
      else if String.eqb p "/positions/vehicle" then Ok (vehicle w now req)
      else if String.eqb p "/positions/moving" then moving w now
      else if String.eqb p "/positions/stopped" then Ok (stopped w now)
      else if String.eqb p "/stats" then Ok (send_json (BStats (stats w)) 200, w)
      else Ok (send_json BNotFound 404, w).
Proof. intros Hp. unfold do_GET. apply String.eqb_neq in Hp. now rewrite Hp. Qed.

Lemma untouched_refl (w : world) : untouched w w.
Proof. split; auto. Qed.

Lemma vehicle_untouched (w : world) (now : datetime) (req : request) :
  untouched w (vehicle w now req).2.
Proof.
  unfold vehicle.
  repeat match goal with
         | |- context [if ?b then _ else _] => destruct b
         end;
    try (edestruct send_filtered_spec as (v & w1 & E & _ & _ & _ & _ & U);
         rewrite E; exact U).
  apply untouched_refl.
Qed.

End MoreAuth.

(** X1: with a configured key, every answer of [do_GET] off [/health] other
    than the 401 one goes to a request whose bearer token or [api_key]
    parameter equals the key; no assumption on the characters involved. *)
Theorem no_answer_without_key `{PyLib} (API_KEY : string) (w w' : world)
    (now : datetime) (req : request) (r : response) :
  API_KEY <> "" ->
  path req <> "/health" ->
  do_GET API_KEY w now req = Ok (r, w') ->
  http_status r <> 401 ->
  credentials_accepted API_KEY req.
Proof.
  intros Hne Hp E Hs. rewrite (do_GET_off_health API_KEY w now req Hp) in E.
  destruct (check_auth API_KEY req) as [[|]|e] eqn:A; cbn [rbind negb] in E.
  - exact (check_auth_sound API_KEY req Hne A).
  - injection E as <- _. contradiction.
  - discriminate.
Qed.

Lemma no_answer_without_key_witness :
  @credentials_accepted AsciiLib.lib "secret"
     {| path := "/stats?api_key=secret"; authorization := None |}.
Proof.
  apply (@no_answer_without_key AsciiLib.lib "secret" init_world init_world 0
           {| path := "/stats?api_key=secret"; authorization := None |}
           (send_json (BStats (stats init_world)) 200)).
  - discriminate.
  - discriminate.
  - reflexivity.
  - discriminate.
Defined.

(** X2: with an empty [API_KEY] the check accepts every request without
    reading its credentials, and [do_GET] never answers 401. *)
Theorem empty_key_disables_auth `{PyLib} (w : world) (now : datetime) (req : request) :
  check_auth "" req = Ok true
  /\ forall r w', do_GET "" w now req = Ok (r, w') -> http_status r <> 401.
Proof.
  split; [reflexivity|]. intros r w' E.
  destruct (String.eqb_spec (path req) "/health") as [Hp|Hp].
  - rewrite (do_GET_health "" w now req Hp) in E. injection E as <- _. discriminate.
  - exact (do_GET_authorized_not_401 "" w w' now req r Hp eq_refl E).
Qed.

Lemma empty_key_disables_auth_witness :
  http_status (send_json (BStats (stats init_world)) 200) <> 401.
Proof.
  destruct (@empty_key_disables_auth AsciiLib.lib init_world 0
              {| path := "/stats"; authorization := None |}) as [_ N].
  apply (N _ init_world). reflexivity.
Defined.

(** X3: whatever the request, a [do_GET] that answers leaves the cache
    object and every existing list object as they were. *)
Theorem do_GET_read_only `{PyLib} (API_KEY : string) (w w' : world)
    (now : datetime) (req : request) (r : response) :
  do_GET API_KEY w now req = Ok (r, w') -> untouched w w'.
Proof.
  destruct (String.eqb_spec (path req) "/health") as [Hp|Hp].
  - rewrite (do_GET_health API_KEY w now req Hp). intros [= _ <-].
    apply untouched_refl.
  - rewrite (do_GET_off_health API_KEY w now req Hp).
    destruct (check_auth API_KEY req) as [[|]|e]; cbn [rbind negb];
      [| intros [= _ <-]; apply untouched_refl | discriminate].
    destruct (urlparse (path req)); cbn [rbind]; [|discriminate].
    cbv zeta.
    repeat match goal with
           | |- context [if ?b then _ else _] => destruct b
           end; try (intros [= _ <-]; apply untouched_refl).
    + intros [= E]. pose proof (vehicle_untouched w now req) as U.
      rewrite E in U. exact U.
    + unfold moving. destruct (filterM _ _); cbn [rbind]; [|discriminate].
      edestruct send_filtered_spec as (v & w1 & E & _ & _ & _ & _ & U).
      rewrite E. intros [= _ <-]. exact U.
    + unfold stopped.
      edestruct send_filtered_spec as (v & w1 & E & _ & _ & _ & _ & U).
      rewrite E. intros [= _ <-]. exact U.
Qed.

Lemma do_GET_read_only_witness :
  exists w',
    @do_GET AsciiLib.lib "" (scenario_world 5) 9
       {| path := "/positions/stopped"; authorization := None |}
    = Ok ({| http_status := 200;
             payload := BSnapshot {| v_positions := 2%nat; v_count := 0%nat;
                                     v_last_update := Some 5;
                                     v_cache_age_seconds := Some (0 # 10);
                                     v_error := None |} [] |}, w')
    /\ untouched (scenario_world 5) w'.
Proof.
  eexists. split; [vm_compute; reflexivity|].
  eapply (@do_GET_read_only AsciiLib.lib "" (scenario_world 5) _ 9
            {| path := "/positions/stopped"; authorization := None |}).
  vm_compute. reflexivity.
Defined.

(** X4: a [TypeError] out of [do_GET] has one of two causes: a credential
    (or the key) outside ASCII reached the comparison, or
    [/positions/moving] met a record that stands still and whose speed is
    not a number. *)
Theorem do_GET_type_error_causes `{PyLib} (API_KEY : string) (w : world)
    (now : datetime) (req : request) :
  do_GET API_KEY w now req = Raise TypeError ->
  (is_ascii API_KEY = false
   \/ (exists t, bearer_token req = Some t /\ is_ascii t = false)
   \/ (exists k, query_first (path req) "api_key" = Some k /\ is_ascii k = false))
  \/ (urlparse_path (path req) = "/positions/moving"
      /\ Exists (fun p => truthy (stand_still p) = true
                          /\ num_of (speed p) = None)
                (deref (heap w) (positions (cache w)))).
Proof.
  destruct (String.eqb_spec (path req) "/health") as [Hp|Hp].
  - rewrite (do_GET_health API_KEY w now req Hp). discriminate.
  - rewrite (do_GET_off_health API_KEY w now req Hp).
    destruct (check_auth API_KEY req) as [[|]|e'] eqn:A; cbn [rbind negb].
    + unfold urlparse. destruct (url_ok (path req)); cbn [rbind]; [|discriminate].
      cbv zeta.
      destruct (_ || _); [discriminate|].
      destruct (String.eqb_spec (urlparse_path (path req)) "/positions/vehicle");
        [discriminate|].
      destruct (String.eqb_spec (urlparse_path (path req)) "/positions/moving")
        as [Em|_].
      * unfold moving. simpl v_positions.
        destruct (filterM is_moving _) as [kept|e'] eqn:F; cbn [rbind]; [discriminate|].
        intros _. destruct (filterM_is_moving_raises _ _ F) as [_ Ex]. auto.
      * repeat match goal with
               | |- context [if ?b then _ else _] => destruct b
               end; discriminate.
    + discriminate.
    + intros [= ->]. left. exact (check_auth_raises API_KEY req A).
Qed.

Lemma do_GET_type_error_causes_witness :
  (is_ascii "secret" = false
   \/ (exists t, bearer_token {| path := "/stats";
                                 authorization :=
                                   Some ("Bearer " ++ String (ascii_of_nat 233) "") |}
                 = Some t /\ is_ascii t = false)
   \/ (exists k, AsciiLib.first_value "/stats" "api_key" = Some k
                 /\ is_ascii k = false))
  \/ (AsciiLib.url_path "/stats" = "/positions/moving"
      /\ Exists (fun p => truthy (stand_still p) = true
                          /\ num_of (speed p) = None)
                (deref (heap init_world) (positions (cache init_world)))).
Proof.
  apply (@do_GET_type_error_causes AsciiLib.lib "secret" init_world 0
           {| path := "/stats";
              authorization := Some ("Bearer " ++ String (ascii_of_nat 233) "") |}).
  vm_compute. reflexivity.
Defined.

(** X5: the health route is matched on the raw request target.  A target
    whose path component is [/health] but which is not exactly [/health] (it
    carries a query string) goes through the credential check and then finds
    no route: 401 without the key, 404 with it. *)
Theorem health_with_query_is_no_health `{PyLib} (API_KEY : string) (w : world)
    (now : datetime) (req : request) :
  path req <> "/health" ->
  urlparse_path (path req) = "/health" ->
  (check_auth API_KEY req = Ok true ->
   do_GET API_KEY w now req = Ok ({| http_status := 404; payload := BNotFound |}, w))
  /\ (check_auth API_KEY req = Ok false ->
      do_GET API_KEY w now req
      = Ok ({| http_status := 401; payload := BError unauthorized_message |}, w)).
Proof.
  intros Hp Hu. rewrite (do_GET_off_health API_KEY w now req Hp).
  split; intros ->; cbn [rbind negb]; [|reflexivity].
  rewrite urlparse_accepts by (rewrite Hu; discriminate).
  cbn [rbind]. cbv zeta. rewrite Hu. reflexivity.
Qed.

Lemma health_with_query_is_no_health_witness :
  @do_GET AsciiLib.lib "secret" init_world 0
     {| path := "/health?verbose=1"; authorization := Some "Bearer secret" |}
  = Ok ({| http_status := 404; payload := BNotFound |}, init_world)
  /\ @do_GET AsciiLib.lib "secret" init_world 0
       {| path := "/health?verbose=1"; authorization := None |}
     = Ok ({| http_status := 401; payload := BError unauthorized_message |}, init_world).
Proof.
  split.
  - apply (@health_with_query_is_no_health AsciiLib.lib "secret" init_world 0
             {| path := "/health?verbose=1"; authorization := Some "Bearer secret" |});
      [discriminate | reflexivity | reflexivity].
  - apply (@health_with_query_is_no_health AsciiLib.lib "secret" init_world 0
             {| path := "/health?verbose=1"; authorization := None |});
      [discriminate | reflexivity | reflexivity].
Defined.

Section MoreFilters.

Lemma three_way_length {A} (f g h : A -> bool) (l : list A) :
  (forall x, In x l ->
             (f x = true /\ g x = false /\ h x = false)
             \/ (f x = false /\ g x = true /\ h x = false)
             \/ (f x = false /\ g x = false /\ h x = true)) ->
  (Datatypes.length (List.filter f l) + Datatypes.length (List.filter g l)
   + Datatypes.length (List.filter h l) = Datatypes.length l)%nat.
Proof.
  induction l as [|x l IH]; intros Hx; [reflexivity|]. simpl.
  assert (Hl : forall y, In y l -> _) by (intros y Hy; exact (Hx y (or_intror Hy))).
  specialize (IH Hl).
  destruct (Hx x (or_introl eq_refl)) as [(-> & -> & ->)|[(-> & -> & ->)|(-> & -> & ->)]];
    simpl; lia.
Qed.

(** A record with a numeric speed is in exactly one of the three classes. *)
Lemma moving_stopped_or_below (p : PositionRecord) :
  is_Some (num_of (speed p)) ->
  (spec_moving p = true /\ is_stopped p = false /\ stands_below_zero p = false)
  \/ (spec_moving p = false /\ is_stopped p = true /\ stands_below_zero p = false)
  \/ (spec_moving p = false /\ is_stopped p = false /\ stands_below_zero p = true).
Proof.
  intros [q Hq]. unfold spec_moving, is_stopped, stands_below_zero.
  assert (py_eqb (speed p) (PInt 0) = Qeq_bool q 0) as ->.
  { destruct (speed p); simpl in Hq; try discriminate; injection Hq as <-; reflexivity. }
  rewrite Hq. destruct (truthy (stand_still p)); simpl; [|auto].
  destruct (Qle_bool q 0) eqn:L1, (Qle_bool 0 q) eqn:L2, (Qeq_bool q 0) eqn:E0; simpl;
    auto; exfalso;
    repeat match goal with
           | H : Qle_bool _ _ = true |- _ => apply Qle_bool_iff in H
           | H : Qle_bool ?a ?b = false |- _ =>
               assert (~ (a <= b)%Q) by (rewrite <- Qle_bool_iff; congruence); clear H
           | H : Qeq_bool _ _ = true |- _ => apply Qeq_bool_iff in H
           | H : Qeq_bool _ _ = false |- _ => apply Qeq_bool_neq in H
           end;
    first [lra | match goal with H : ~ (_ == _)%Q |- _ => apply H; lra end].
Qed.

Lemma py_eqb_text (v : pyval) (s : string) : py_eqb v (PStr s) = true <-> v = PStr s.
Proof.
  destruct v; simpl; split; try discriminate.
  - intros E%String.eqb_eq. now subst.
  - intros [= ->]. apply String.eqb_refl.
Qed.

End MoreFilters.

(** X6: on speeds that are finite numbers every cached record is listed by
    exactly one of
    [/positions/moving] and [/positions/stopped], unless it stands still
    with a speed below zero: the two counts and the number of such records
    add up to the number of cached positions.  A record whose [stand_still]
    is false is always listed as moving, whatever its speed. *)
Theorem moving_stopped_partition (w : world) (now : datetime) :
  let all := deref (heap w) (positions (cache w)) in
  Forall (fun p => is_Some (num_of (speed p))) all ->
  exists vm lm wm vs ls ws,
    moving w now = Ok ({| http_status := 200; payload := BSnapshot vm lm |}, wm)
    /\ stopped w now = ({| http_status := 200; payload := BSnapshot vs ls |}, ws)
    /\ (v_count vm + v_count vs
        + Datatypes.length (List.filter stands_below_zero all)
        = Datatypes.length all)%nat
    /\ (forall p, In p all -> truthy (stand_still p) = false -> In p lm).
Proof.
  intros all Hnum.
  destruct (send_filtered_spec w (get w now) (List.filter spec_moving all))
    as (vm & wm & Em & Cm & _).
  destruct (send_filtered_spec w (get w now) (List.filter is_stopped all))
    as (vs & ws & Es & Cs & _).
  exists vm, (List.filter spec_moving all), wm, vs, (List.filter is_stopped all), ws.
  split.
  { unfold moving. simpl v_positions. fold all.
    rewrite (filterM_is_moving all Hnum). simpl. now rewrite Em. }
  split; [exact Es|]. split.
  - rewrite Cm, Cs. apply three_way_length. intros p Hp.
    apply moving_stopped_or_below. rewrite Forall_forall in Hnum.
    apply Hnum. now apply list_elem_of_In.
  - intros p Hp Hs. apply filter_In. split; [exact Hp|].
    unfold spec_moving. now rewrite Hs.
Qed.

Lemma moving_stopped_partition_witness :
  exists vm lm wm vs ls ws,
    moving (scenario_world 5) 9
    = Ok ({| http_status := 200; payload := BSnapshot vm lm |}, wm)
    /\ stopped (scenario_world 5) 9
       = ({| http_status := 200; payload := BSnapshot vs ls |}, ws)
    /\ (v_count vm + v_count vs + 0 = 1)%nat.
Proof.
  destruct (moving_stopped_partition (scenario_world 5) 9)
    as (vm & lm & wm & vs & ls & ws & Em & Es & Hc & _).
  { vm_compute. repeat constructor. eexists. reflexivity. }
  exists vm, lm, wm, vs, ls, ws. split; [exact Em|]. split; [exact Es|]. exact Hc.
Defined.

(** X7: with no usable [plate], the [number] parameter of
    [/positions/vehicle] keeps exactly the cached records whose [number] is
    the very text given, in their order; a record whose [number] is not
    text (a JSON number, say) is never kept. *)
Theorem vehicle_number_exact `{PyLib} (w : world) (now : datetime) (req : request)
    (n : string) :
  truthy_text (query_first (path req) "plate") = false ->
  query_first (path req) "number" = Some n -> n <> "" ->
  let all := deref (heap w) (positions (cache w)) in
  exists view lv wv,
    vehicle w now req = ({| http_status := 200; payload := BSnapshot view lv |}, wv)
    /\ sublist lv all
    /\ v_count view = Datatypes.length lv
    /\ (forall p, In p lv <-> In p all /\ number p = PStr n).
Proof.
  intros Hplate Hn Hne all. unfold vehicle. rewrite Hplate, Hn.
  cbn [truthy_text default from_option id]. apply String.eqb_neq in Hne. rewrite Hne.
  cbn [negb]. simpl v_positions. fold all.
  edestruct send_filtered_spec as (v & w' & E & C & _). rewrite E.
  do 3 eexists. split; [reflexivity|]. split; [apply filter_is_sublist|].
  split; [exact C|]. intros p. rewrite filter_In, py_eqb_text. reflexivity.
Qed.

Lemma vehicle_number_exact_witness :
  exists view lv wv,
    @vehicle AsciiLib.lib (scenario_world 5) 9
       {| path := "/positions/vehicle?number=001"; authorization := None |}
    = ({| http_status := 200; payload := BSnapshot view lv |}, wv)
    /\ v_count view = Datatypes.length lv.
Proof.
  destruct (@vehicle_number_exact AsciiLib.lib (scenario_world 5) 9
              {| path := "/positions/vehicle?number=001"; authorization := None |} "001")
    as (view & lv & wv & E & _ & C & _);
    [reflexivity | reflexivity | discriminate |].
  exists view, lv, wv. split; [exact E | exact C].
Defined.

Section MoreCache.

Lemma round1_nonneg (x : Q) : (0 <= x)%Q -> (0 <= round1 x)%Q.
Proof.
  intros Hx. unfold round1.
  assert (0 <= Qfloor (x * 10)) as Hf.
  { assert (0 <= x * 10)%Q as Hx10 by lra.
    exact (Qfloor_resp_le 0 (x * 10) Hx10). }
  cbv zeta. destruct (Qcompare _ _); try destruct (Z.even _);
    generalize dependent (Qfloor (x * 10)); intros f Hf; unfold Qle; simpl; lia.
Qed.

Lemma total_seconds_nonneg (now t : datetime) : t <= now -> (0 <= total_seconds now t)%Q.
Proof. intros Hle. unfold total_seconds, Qle. simpl. lia. Qed.

End MoreCache.

(** X8: when time has passed since the last update, the age [get] reports
    is a whole number of tenths, at most 0.05 away from the elapsed time
    (on the idealised value), and not negative unless the clock went
    backwards. *)
Theorem cache_age_accuracy (w : world) (now t : datetime) :
  last_update (cache w) = Some t -> now <> t ->
  exists (a : Q) (n : Z),
    v_cache_age_seconds (get w now) = Some a
    /\ a = n # 10
    /\ (Qabs (a - total_seconds now t) <= 1 # 20)%Q
    /\ (t < now -> (0 <= a)%Q).
Proof.
  intros E Hne. destruct (round1_tenth (total_seconds now t)) as [n Hn].
  exists (round1 (total_seconds now t)), n.
  split; [exact (get_age_some w now t E Hne)|]. split; [exact Hn|].
  split; [apply round1_near|]. intros Hlt.
  apply round1_nonneg, total_seconds_nonneg. lia.
Qed.

Lemma cache_age_accuracy_witness :
  exists (a : Q) (n : Z),
    v_cache_age_seconds (get (scenario_world 1000000) 3140000) = Some a
    /\ a = n # 10
    /\ (Qabs (a - total_seconds 3140000%Z 1000000%Z) <= 1 # 20)%Q.
Proof.
  destruct (cache_age_accuracy (scenario_world 1000000) 3140000 1000000)
    as (a & n & E & Hn & Hnear & _); [reflexivity | discriminate |].
  exists a, n. split; [exact E|]. split; [exact Hn | exact Hnear].
Defined.

(** X9: [HEAD] never sends a body.  On [/health] it answers 200 exactly
    when [last_update] is set and [error] is null or the empty text, and 503
    otherwise; on any other target it answers 404, credentials or not. *)
Theorem do_HEAD_status (w : world) (req : request) :
  payload (do_HEAD w req) = BNone
  /\ (path req = "/health" ->
      (http_status (do_HEAD w req) = 200
       <-> last_update (cache w) <> None
           /\ (error (cache w) = None \/ error (cache w) = Some ""))
      /\ (http_status (do_HEAD w req) = 200 \/ http_status (do_HEAD w req) = 503))
  /\ (path req <> "/health" -> http_status (do_HEAD w req) = 404).
Proof.
  split; [unfold do_HEAD; now destruct (path req =? "/health")|]. split.
  - intros Hp. rewrite (do_HEAD_health w req Hp). cbn [http_status].
    pose proof (looks_healthy_iff (stats w)) as L. cbn [stats s_last_update s_error] in L.
    destruct (looks_healthy (stats w)).
    + split; [|now left]. split; [intros _; now apply L | reflexivity].
    + split; [|now right]. split; [discriminate|]. intros C. apply L in C. discriminate.
  - intros Hp. unfold do_HEAD. apply String.eqb_neq in Hp. now rewrite Hp.
Qed.

Lemma do_HEAD_status_witness :
  http_status (do_HEAD (scenario_world 5)
                 {| path := "/health"; authorization := None |}) = 200
  /\ http_status (do_HEAD (scenario_world 5)
                    {| path := "/positions"; authorization := Some "Bearer secret" |})
     = 404.
Proof.
  split.
  - destruct (do_HEAD_status (scenario_world 5)
                {| path := "/health"; authorization := None |}) as (_ & Hh & _).
    destruct (Hh eq_refl) as [[_ Hok] _]. apply Hok.
    split; [discriminate | left; reflexivity].
  - destruct (do_HEAD_status (scenario_world 5)
                {| path := "/positions"; authorization := Some "Bearer secret" |})
      as (_ & _ & Hn).
    apply Hn. discriminate.
Defined.

Section MoreScraper.
Context `{PyLib}.

Lemma deliver_cons (url : string) (json : option pyval)
    (rest : list (string * option pyval)) (data : gmap string pyval) :
  deliver ((url, json) :: rest) data = deliver rest (_intercept_response url json data).
Proof. reflexivity. Qed.

Lemma intercept_by_stream (url : string) (json : option pyval)
    (data : gmap string pyval) :
  _intercept_response url json data
  = if is_objects_url url then store_capture "objects" json data
    else if is_telemetry_url url then store_capture "telemetry" json data
    else data.
Proof.
  unfold _intercept_response, is_telemetry_url, is_objects_url, store_capture.
  destruct (str_contains "/api/objects" url && negb (str_contains "?" url));
    [reflexivity|].
  cbn [negb andb]. now destruct (str_contains "/api/latestTelemetry/objects" url).
Qed.

Lemma store_capture_commute (v1 v2 : option pyval) (data : gmap string pyval) :
  store_capture "telemetry" v1 (store_capture "objects" v2 data)
  = store_capture "objects" v2 (store_capture "telemetry" v1 data).
Proof.
  destruct v1, v2; simpl; try reflexivity. now apply insert_insert_ne.
Qed.

Lemma store_capture_twice (key : string) (v1 v2 : option pyval)
    (data : gmap string pyval) :
  store_capture key v1 (store_capture key v2 data)
  = store_capture key (match v1 with Some v => Some v | None => v2 end) data.
Proof.
  destruct v1, v2; simpl; try reflexivity. apply insert_insert_eq.
Qed.

(** No objects captured, or a falsy capture: nothing to reconcile. *)
Lemma get_positions_falsy (data : gmap string pyval) :
  truthy (default (PList []) (data !! "objects")) = false ->
  get_positions data = Ok [].
Proof.
  intros F. unfold get_positions, captured, py_or. rewrite F. reflexivity.
Qed.

Lemma build_telem_map_app (ts1 ts2 : list pyval) (m : pydict) :
  build_telem_map m (ts1 ++ ts2)
  = let* m1 := build_telem_map m ts1 in build_telem_map m1 ts2.
Proof.
  revert m. induction ts1 as [|t ts1 IH]; intros m; [reflexivity|].
  cbn [app build_telem_map].
  destruct (py_getitem t "objectId") as [k|e]; cbn [rbind]; [|reflexivity].
  destruct (hashable k); [apply IH | reflexivity].
Qed.

(** Whether the index can be built, and the exception if not, does not
    depend on what it already holds. *)
Lemma build_telem_map_outcome (ts : list pyval) (m m' : pydict) :
  (exists a b, build_telem_map m ts = Ok a /\ build_telem_map m' ts = Ok b)
  \/ (exists e, build_telem_map m ts = Raise e /\ build_telem_map m' ts = Raise e).
Proof.
  revert m m'. induction ts as [|t ts IH]; intros m m'; simpl; [left; eauto|].
  destruct (py_getitem t "objectId") as [k|e]; cbn [rbind]; [|right; eauto].
  destruct (hashable k); [apply IH | right; eauto].
Qed.

Lemma position_of_lookup (m1 m2 : pydict) (obj : pyval) :
  (forall d k, obj = PDict d -> d !! "objectId" = Some k ->
               dict_find m1 k = dict_find m2 k) ->
  position_of m1 obj = position_of m2 obj.
Proof.
  intros Hk. unfold position_of.
  destruct obj as [| | | | | |d]; try reflexivity. cbn [py_getitem].
  destruct (d !! "objectId") as [k|] eqn:Ek; [|reflexivity]. cbn [rbind].
  unfold dict_get. now rewrite (Hk d k eq_refl Ek).
Qed.

Lemma mapM_ext {A B} (f g : A -> result B) (l : list A) :
  Forall (fun x => f x = g x) l -> mapM f l = mapM g l.
Proof.
  induction 1 as [|x l Hx _ IH]; [reflexivity|]. simpl. now rewrite Hx, IH.
Qed.

(** The telemetry list of a successful reconciliation carries its keys. *)
Lemma reconciled_telemetry_keyed (objs ts : list pyval) (rs : list PositionRecord) :
  objs <> [] ->
  reconcile (PList objs) (PList ts) = Ok rs ->
  Forall (fun t => has_key t = true) ts.
Proof.
  intros Hne E. unfold reconcile in E. destruct objs as [|o objs']; [contradiction|].
  cbn [truthy negb py_iter rbind] in E.
  apply rbind_Ok in E as (m & Em & _). exact (build_telem_map_keys ts [] m Em).
Qed.

(** What the captures hold under [objects] after a run of responses. *)
Lemma deliver_objects (responses : list (string * option pyval))
    (data : gmap string pyval) :
  deliver responses data !! "objects"
  = match last_capture is_objects_url responses with
    | Some v => Some v
    | None => data !! "objects"
    end.
Proof.
  revert data. induction responses as [|[url json] rest IH]; intros data;
    [reflexivity|].
  rewrite deliver_cons, IH, intercept_by_stream. cbn [last_capture].
  destruct (last_capture is_objects_url rest); [reflexivity|].
  destruct (is_objects_url url).
  - destruct json; cbn [store_capture]; [apply lookup_insert_eq | reflexivity].
  - destruct (is_telemetry_url url); [|reflexivity].
    destruct json; cbn [store_capture]; [|reflexivity].
    now apply lookup_insert_ne.
Qed.

End MoreScraper.

(** X10: whatever the order and number of responses, the captures after
    them hold, for each of the two streams, the payload of the last
    response of that stream that could be read, and their former value if
    there was none; nothing else is written.  An objects URL with a query
    string belongs to no stream unless it is a telemetry URL. *)
Theorem deliver_last_capture (responses : list (string * option pyval))
    (data : gmap string pyval) :
  deliver responses data
  = store_capture "objects" (last_capture is_objects_url responses)
      (store_capture "telemetry" (last_capture is_telemetry_url responses) data).
Proof.
  revert data. induction responses as [|[url json] rest IH]; intros data;
    [reflexivity|].
  rewrite deliver_cons, IH, intercept_by_stream. cbn [last_capture].
  destruct (is_objects_url url) eqn:Eo.
  - assert (is_telemetry_url url = false) as ->
      by (unfold is_telemetry_url; now rewrite Eo).
    rewrite store_capture_commute, store_capture_twice.
    now destruct (last_capture is_telemetry_url rest).
  - destruct (is_telemetry_url url).
    + rewrite store_capture_twice. now destruct (last_capture is_objects_url rest).
    + now destruct (last_capture is_telemetry_url rest),
                   (last_capture is_objects_url rest).
Qed.

(** X11: a refresh forgets what was captured before it.  Unless an objects
    response with a non-empty payload arrives during the reload,
    [get_positions] right after it returns the empty list, whether the
    reload succeeded or not and whatever telemetry arrived. *)
Theorem refresh_drops_stale_captures `{PyLib} (b : browser) (s : supervisor) :
  (forall v, last_capture is_objects_url (arrived b) = Some v -> truthy v = false) ->
  get_positions (intercepted (refresh b s).2) = Ok [].
Proof.
  intros Hv. apply get_positions_falsy. unfold refresh. cbn [snd intercepted].
  rewrite deliver_objects.
  destruct (last_capture is_objects_url (arrived b)) as [v|] eqn:E.
  - cbn. now apply Hv.
  - reflexivity.
Qed.

Lemma refresh_drops_stale_captures_witness :
  @get_positions AsciiLib.lib
     (intercepted
        (refresh {| arrived := [("https://x/api/latestTelemetry/objects?a=1",
                                 Some scenario_telemetry);
                                ("https://x/api/objects?page=2", Some scenario_objects)];
                    failure := Some "Timeout 30000ms exceeded" |}
                 {| served := init_world;
                    intercepted := <["objects" := scenario_objects]> no_capture |}).2)
  = Ok [].
Proof.
  apply (@refresh_drops_stale_captures AsciiLib.lib).
  vm_compute. discriminate.
Defined.

(** X12: the reconciliation is all or nothing.  When it returns on a
    non-empty object list, every telemetry record and every object is a dict
    with a hashable [objectId]: one record of either list that is not makes
    the whole call raise, with no partial result. *)
Theorem reconcile_all_or_nothing `{PyLib} (objs ts : list pyval)
    (rs : list PositionRecord) :
  objs <> [] ->
  reconcile (PList objs) (PList ts) = Ok rs ->
  Forall (fun t => has_key t = true) ts /\ Forall (fun o => has_key o = true) objs.
Proof.
  intros Hne E. split.
  - unfold reconcile in E. destruct objs as [|o objs']; [contradiction|].
    cbn [truthy negb py_iter rbind] in E.
    apply rbind_Ok in E as (m & Em & _). exact (build_telem_map_keys ts [] m Em).
  - pose proof (reconcile_Ok objs ts rs E) as D.
    clear E Hne. induction D as [|o r objs rs (d & k & -> & Ek & Hk & _) _ IH];
      constructor; [|exact IH].
    simpl. now rewrite Ek.
Qed.

Lemma reconcile_all_or_nothing_witness :
  Forall (fun t => has_key t = true) fleet_telemetry
  /\ Forall (fun o => has_key o = true) fleet_objects.
Proof.
  apply (@reconcile_all_or_nothing AsciiLib.lib fleet_objects fleet_telemetry
           fleet_records).
  - discriminate.
  - vm_compute. reflexivity.
Defined.

(** X13: a telemetry record (a dict with a hashable [objectId]) whose key
    equals no object's key changes nothing: with or without it, wherever it
    stands in the telemetry list, the reconciliation gives the same records
    or raises the same exception. *)
Theorem unknown_telemetry_ignored `{PyLib} (objs ts1 ts2 : list pyval) (t : pyval) :
  has_key t = true ->
  Forall (fun o => forall d k, o = PDict d -> d !! "objectId" = Some k ->
                               has_id t k = false) objs ->
  reconcile (PList objs) (PList (ts1 ++ t :: ts2))
  = reconcile (PList objs) (PList (ts1 ++ ts2)).
Proof.
  intros Ht Hobjs. unfold reconcile. destruct objs as [|o objs']; [reflexivity|].
  set (objs := o :: objs') in *. cbn [truthy negb py_iter rbind].
  rewrite !build_telem_map_app.
  destruct (build_telem_map [] ts1) as [m1|e]; cbn [rbind]; [|reflexivity].
  destruct t as [| | | | | |td]; try discriminate. simpl in Ht.
  cbn [build_telem_map py_getitem].
  destruct (td !! "objectId") as [kt|] eqn:Ekt; [|discriminate]. cbn [rbind].
  rewrite Ht.
  destruct (build_telem_map_outcome ts2 (dict_set m1 kt (PDict td)) m1)
    as [(a & b & Ea & Eb)|(e & Ea & Eb)]; rewrite Ea, Eb; [|reflexivity].
  cbn [rbind]. apply mapM_ext. eapply Forall_impl; [exact Hobjs|].
  intros obj Hobj. cbn beta in Hobj. apply position_of_lookup. intros d k -> Ek.
  rewrite (build_telem_map_find ts2 _ a k Ea), (build_telem_map_find ts2 _ b k Eb).
  destruct (last_match ts2 k); [reflexivity|].
  rewrite dict_find_set.
  specialize (Hobj d k eq_refl Ek). simpl in Hobj. rewrite Ekt in Hobj.
  now rewrite Hobj.
Qed.

Lemma unknown_telemetry_ignored_witness :
  @reconcile AsciiLib.lib (PList fleet_objects)
     (PList ([] ++ jdict [("objectId", PStr "Z9"); ("speed", PInt 90)] :: fleet_telemetry))
  = @reconcile AsciiLib.lib (PList fleet_objects) (PList ([] ++ fleet_telemetry)).
Proof.
  apply (@unknown_telemetry_ignored AsciiLib.lib).
  - reflexivity.
  - repeat (apply Forall_cons_2;
            [intros d k [= <-]; vm_compute; intros [= <-]; reflexivity|]).
    apply Forall_nil_2.
Defined.

Section SupervisorProperties.
Context `{PyLib}.

Lemma grows_from_refl (w : world) : grows_from w w.
Proof. unfold grows_from. repeat split; auto; lia. Qed.

Lemma grows_from_trans (w1 w2 w3 : world) :
  grows_from w1 w2 -> grows_from w2 w3 -> grows_from w1 w3.
Proof.
  intros (L1 & R1 & H1) (L2 & R2 & H2). unfold grows_from.
  repeat split; auto; lia.
Qed.

Lemma sound_step_refl (w : world) : sound_step w w.
Proof. split; [auto | apply grows_from_refl]. Qed.

Lemma sound_step_trans (w1 w2 w3 : world) :
  sound_step w1 w2 -> sound_step w2 w3 -> sound_step w1 w3.
Proof.
  intros [N1 G1] [N2 G2]. split; [auto | exact (grows_from_trans _ _ _ G1 G2)].
Qed.

Lemma set_error_sound (w : world) (msg : string) :
  sound_step w (with_cache w (set_error (cache w) msg)).
Proof.
  split; [intros N; exact N|]. unfold grows_from. cbn. repeat split; auto; lia.
Qed.

Lemma count_login_sound (w : world) :
  sound_step w (with_cache w (count_login (cache w))).
Proof.
  split; [intros N; exact N|]. unfold grows_from. cbn. repeat split; auto; lia.
Qed.

Lemma update_sound (w : world) (p : PositionRecord) (ps : list PositionRecord)
    (now : datetime) :
  sound_step w {| heap := (alloc (heap w) (p :: ps)).2;
                  cache := update (cache w) (alloc (heap w) (p :: ps)).1 now |}.
Proof.
  split.
  - intros N. right. cbn [cache heap update last_update refresh_count positions].
    rewrite deref_alloc. split; [discriminate|]. split; [|discriminate].
    destruct N as [(_ & -> & _)|(_ & ? & _)]; lia.
  - unfold grows_from. cbn [cache heap update login_count refresh_count].
    split; [lia|]. split; [lia|]. intros l qs. apply alloc_keeps.
Qed.

Lemma login_sound (b : browser) (s : supervisor) :
  sound_step (served s) (served (login b s).2).
Proof.
  unfold login. destruct (failure b) as [msg|]; cbn [snd served].
  - eapply sound_step_trans; [apply count_login_sound | apply set_error_sound].
  - apply count_login_sound.
Qed.

Lemma sleep_and_refresh_sound (e : poll_env) (s : supervisor) :
  sound_step (served s) (served (sleep_and_refresh e s).1).
Proof.
  unfold sleep_and_refresh, refresh.
  destruct (failure (reload e)); [|apply sound_step_refl].
  match goal with
  | |- context [login ?b ?s0] =>
      pose proof (login_sound b s0) as L; destruct (login b s0) as [ok s3]
  end.
  exact L.
Qed.

Lemma poll_iteration_sound (e : poll_env) (s : supervisor) :
  sound_step (served s) (served (poll_iteration e s).1).
Proof.
  unfold poll_iteration.
  destruct (get_positions (intercepted s)) as [[|p ps]|exn].
  - pose proof (login_sound (empty_login e) s) as L.
    destruct (login (empty_login e) s) as [[|] s1]; cbn [snd] in L; [|exact L].
    eapply sound_step_trans; [exact L | apply sleep_and_refresh_sound].
  - pose proof (update_sound (served s) p ps (clock e)) as U.
    destruct (alloc (heap (served s)) (p :: ps)) as [l h]. cbn [fst snd] in U.
    destruct (dump_failure e) as [msg|].
    + eapply sound_step_trans; [exact U | apply set_error_sound].
    + eapply sound_step_trans; [exact U|].
      match goal with
      | |- context [sleep_and_refresh e ?s0] => exact (sleep_and_refresh_sound e s0)
      end.
  - apply set_error_sound.
Qed.

Lemma polling_sound (turns : list poll_env) (s : supervisor) :
  sound_step (served s) (served (polling turns s)).
Proof.
  revert s. induction turns as [|e turns IH]; intros s; [apply sound_step_refl|].
  cbn [polling]. pose proof (poll_iteration_sound e s) as P.
  destruct (poll_iteration e s) as [s' [|]]; cbn [fst] in P; [|exact P].
  eapply sound_step_trans; [exact P | apply IH].
Qed.

Lemma session_sound (e : session_env) (s : supervisor) :
  sound_step (served s) (served (session e s)).
Proof.
  unfold session. destruct (start_failure e) as [msg|]; [apply set_error_sound|].
  pose proof (login_sound (first_login e) s) as L.
  destruct (login (first_login e) s) as [[|] s1]; cbn [snd] in L; [|exact L].
  eapply sound_step_trans; [exact L | apply polling_sound].
Qed.

Lemma background_scraper_sound (sessions : list session_env) (s : supervisor) :
  sound_step (served s) (served (background_scraper sessions s)).
Proof.
  unfold background_scraper. revert s.
  induction sessions as [|e sessions IH]; intros s; [apply sound_step_refl|].
  cbn [fold_left]. eapply sound_step_trans; [apply session_sound | apply IH].
Qed.

Lemma captured_list (data : gmap string pyval) (key : string) (l : list pyval) :
  data !! key = Some (PList l) -> captured data key = PList l.
Proof.
  intros E. unfold captured, py_or. rewrite E. cbn. now destruct l.
Qed.

End SupervisorProperties.

(** X14: a login attempt adds exactly one to [login_count] whatever its
    outcome and never touches the positions, [last_update], [refresh_count]
    or any list object.  A failed one records [Login failed: ...], which
    makes the service unhealthy; a successful one leaves the error as it
    was, so an earlier error is not cleared by logging in again. *)
Theorem login_counts_and_keeps_data (b : browser) (s : supervisor) :
  let w := served s in
  let w' := served (login b s).2 in
  login_count (cache w') = login_count (cache w) + 1
  /\ positions (cache w') = positions (cache w)
  /\ last_update (cache w') = last_update (cache w)
  /\ refresh_count (cache w') = refresh_count (cache w)
  /\ heap w' = heap w
  /\ (failure b = None -> (login b s).1 = true /\ error (cache w') = error (cache w))
  /\ (forall msg, failure b = Some msg ->
        (login b s).1 = false
        /\ error (cache w') = Some ("Login failed: " ++ msg)
        /\ looks_healthy (stats w') = false).
Proof.
  cbv zeta. unfold login. destruct (failure b) as [m|]; cbn.
  - repeat split; try discriminate.
    + congruence.
    + unfold looks_healthy. cbn. now rewrite andb_false_r.
  - repeat split; intros; discriminate.
Qed.

Lemma login_counts_and_keeps_data_witness :
  let after :=
    login {| arrived := []; failure := Some "Timeout 60000ms exceeded" |}
          {| served := scenario_world 5; intercepted := no_capture |} in
  after.1 = false
  /\ error (cache (served after.2)) = Some "Login failed: Timeout 60000ms exceeded"
  /\ looks_healthy (stats (served after.2)) = false.
Proof.
  cbv zeta.
  destruct (login_counts_and_keeps_data
              {| arrived := []; failure := Some "Timeout 60000ms exceeded" |}
              {| served := scenario_world 5; intercepted := no_capture |})
    as (_ & _ & _ & _ & _ & _ & F).
  exact (F "Timeout 60000ms exceeded" eq_refl).
Defined.

(** X15: however many sessions and turns the supervisor runs and whatever
    they meet, the cache is never emptied: once it has been updated the
    cached list is not empty (so a set [last_update] comes with a positive
    vehicle count), the two counters never decrease, and no existing list
    object is changed. *)
Theorem supervisor_never_empties `{PyLib} (sessions : list session_env)
    (s : supervisor) :
  never_emptied (served s) ->
  let w' := served (background_scraper sessions s) in
  never_emptied w'
  /\ grows_from (served s) w'
  /\ (s_last_update (stats w') <> None -> (0 < s_vehicle_count (stats w'))%nat).
Proof.
  intros N. cbv zeta.
  destruct (background_scraper_sound sessions s) as [Hn Hg].
  split; [exact (Hn N)|]. split; [exact Hg|].
  cbn [stats s_last_update s_vehicle_count]. intros Hl.
  destruct (Hn N) as [(E & _)|(_ & _ & Hne)]; [contradiction|].
  destruct (deref _ _); [contradiction | cbn; lia].
Qed.

Lemma supervisor_never_empties_witness :
  let run :=
    @background_scraper AsciiLib.lib
      [{| start_failure := None;
          first_login := {| arrived := [("https://x/api/objects", Some scenario_objects)];
                            failure := None |};
          turns := [{| clock := 5; raised_text := ""; dump_failure := None;
                       empty_login := {| arrived := []; failure := None |};
                       during_sleep := [];
                       reload := {| arrived := []; failure := None |};
                       reload_login := {| arrived := []; failure := None |} |};
                    {| clock := 65; raised_text := ""; dump_failure := None;
                       empty_login := {| arrived := []; failure := Some "closed" |};
                       during_sleep := [];
                       reload := {| arrived := []; failure := None |};
                       reload_login := {| arrived := []; failure := None |} |}] |}]
      init_supervisor in
  never_emptied (served run)
  /\ (0 < s_vehicle_count (stats (served run)))%nat.
Proof.
  cbv zeta.
  match goal with
  | |- never_emptied (served (background_scraper ?ss ?s0)) /\ _ =>
      destruct (@supervisor_never_empties AsciiLib.lib ss s0) as (N & _ & P)
  end.
  - left. repeat split.
  - split; [exact N|]. apply P. vm_compute. discriminate.
Defined.

(** X16: a turn that starts with a non-empty, well-formed capture, whose
    snapshot file is written and whose reload succeeds, publishes exactly
    the reconciled records: the cache then holds them in a new list, with
    [last_update] at the time of the update, no error and one more refresh,
    the service is healthy, the captures are reset for the next turn, and
    the loop goes on. *)
Theorem good_capture_is_published `{PyLib} (e : poll_env) (s : supervisor)
    (objs ts : list pyval) :
  intercepted s !! "objects" = Some (PList objs) ->
  intercepted s !! "telemetry" = Some (PList ts) ->
  objs <> [] ->
  Forall (fun o => wf_object o = true) objs ->
  Forall (fun t => wf_telemetry t = true) ts ->
  dump_failure e = None ->
  failure (reload e) = None ->
  exists rs s',
    poll_iteration e s = (s', true)
    /\ reconcile (PList objs) (PList ts) = Ok rs
    /\ Datatypes.length rs = Datatypes.length objs
    /\ deref (heap (served s')) (positions (cache (served s'))) = rs
    /\ last_update (cache (served s')) = Some (clock e)
    /\ error (cache (served s')) = None
    /\ refresh_count (cache (served s')) = refresh_count (cache (served s)) + 1
    /\ login_count (cache (served s')) = login_count (cache (served s))
    /\ looks_healthy (stats (served s')) = true
    /\ intercepted s' = deliver (arrived (reload e)) no_capture.
Proof.
  intros Eo Et Hne Ho Ht Hd Hr.
  destruct (reconcile_total objs ts Ho Ht) as [rs E].
  pose proof (Forall2_length _ _ _ (reconcile_Ok objs ts rs E)) as L.
  exists rs. unfold poll_iteration, get_positions.
  rewrite (captured_list _ _ _ Eo), (captured_list _ _ _ Et), E.
  destruct rs as [|p ps]; [destruct objs; [contradiction | discriminate]|].
  pose proof (deref_alloc (heap (served s)) (p :: ps)) as D.
  destruct (alloc (heap (served s)) (p :: ps)) as [l h]. cbn [fst snd] in D.
  rewrite Hd. unfold sleep_and_refresh, refresh. rewrite Hr. cbn [served intercepted].
  eexists. split; [reflexivity|]. cbn [served intercepted cache heap update].
  split; [reflexivity|]. split; [now symmetry|]. split; [exact D|].
  repeat split.
Qed.

Lemma good_capture_is_published_witness :
  exists rs s',
    @poll_iteration AsciiLib.lib
       {| clock := 5; raised_text := ""; dump_failure := None;
          empty_login := {| arrived := []; failure := None |};
          during_sleep := [];
          reload := {| arrived := []; failure := None |};
          reload_login := {| arrived := []; failure := None |} |}
       {| served := init_world;
          intercepted := <["objects" := PList fleet_objects]>
                           (<["telemetry" := PList fleet_telemetry]> ∅) |}
    = (s', true)
    /\ Datatypes.length rs = 3%nat
    /\ deref (heap (served s')) (positions (cache (served s'))) = rs
    /\ looks_healthy (stats (served s')) = true.
Proof.
  destruct (@good_capture_is_published AsciiLib.lib
              {| clock := 5; raised_text := ""; dump_failure := None;
                 empty_login := {| arrived := []; failure := None |};
                 during_sleep := [];
                 reload := {| arrived := []; failure := None |};
                 reload_login := {| arrived := []; failure := None |} |}
              {| served := init_world;
                 intercepted := <["objects" := PList fleet_objects]>
                                  (<["telemetry" := PList fleet_telemetry]> ∅) |}
              fleet_objects fleet_telemetry)
    as (rs & s' & E & _ & L & D & _ & _ & _ & _ & Hh & _).
  - reflexivity.
  - reflexivity.
  - discriminate.
  - repeat (apply Forall_cons_2; [vm_compute; reflexivity|]). apply Forall_nil_2.
  - repeat (apply Forall_cons_2; [vm_compute; reflexivity|]). apply Forall_nil_2.
  - reflexivity.
  - reflexivity.
  - exists rs, s'. split; [exact E|]. split; [exact L|]. split; [exact D | exact Hh].
Defined.

(** X17: one telemetry record that is not a dict with a hashable
    [objectId], next to a non-empty objects capture, ends the loop: the turn
    records the error text and stops, without update, login or refresh; the
    cached list, [last_update], both counters and the captures stay as they
    were. *)
Theorem malformed_telemetry_stops_loop `{PyLib} (e : poll_env) (s : supervisor)
    (objs ts : list pyval) :
  intercepted s !! "objects" = Some (PList objs) ->
  intercepted s !! "telemetry" = Some (PList ts) ->
  objs <> [] ->
  Exists (fun t => has_key t = false) ts ->
  poll_iteration e s
  = ({| served := with_cache (served s)
                    (set_error (cache (served s)) (raised_text e));
        intercepted := intercepted s |}, false)
  /\ let w' := served (poll_iteration e s).1 in
     error (cache w') = Some (raised_text e)
     /\ positions (cache w') = positions (cache (served s))
     /\ last_update (cache w') = last_update (cache (served s))
     /\ refresh_count (cache w') = refresh_count (cache (served s))
     /\ login_count (cache w') = login_count (cache (served s))
     /\ heap w' = heap (served s).
Proof.
  intros Eo Et Hne Hex.
  assert (exists exn, get_positions (intercepted s) = Raise exn) as [exn Eg].
  { unfold get_positions.
    rewrite (captured_list _ _ _ Eo), (captured_list _ _ _ Et).
    destruct (reconcile (PList objs) (PList ts)) as [rs|exn] eqn:E; [|eauto].
    pose proof (reconciled_telemetry_keyed objs ts rs Hne E) as Hk.
    exfalso. apply Exists_exists in Hex as (t & Hin & Hf).
    rewrite Forall_forall in Hk. specialize (Hk t Hin). congruence. }
  assert (poll_iteration e s
          = ({| served := with_cache (served s)
                            (set_error (cache (served s)) (raised_text e));
                intercepted := intercepted s |}, false)) as ->.
  { unfold poll_iteration. now rewrite Eg. }
  split; [reflexivity|]. cbv zeta. cbn. repeat split.
Qed.

Lemma malformed_telemetry_stops_loop_witness :
  (@poll_iteration AsciiLib.lib
     {| clock := 5; raised_text := "'objectId'"; dump_failure := None;
        empty_login := {| arrived := []; failure := None |};
        during_sleep := [];
        reload := {| arrived := []; failure := None |};
        reload_login := {| arrived := []; failure := None |} |}
     {| served := scenario_world 1;
        intercepted := <["objects" := PList fleet_objects]>
                         (<["telemetry" := PList [jdict [("speed", PInt 3)]]]> ∅) |}).2
  = false.
Proof.
  destruct (@malformed_telemetry_stops_loop AsciiLib.lib
              {| clock := 5; raised_text := "'objectId'"; dump_failure := None;
                 empty_login := {| arrived := []; failure := None |};
                 during_sleep := [];
                 reload := {| arrived := []; failure := None |};
                 reload_login := {| arrived := []; failure := None |} |}
              {| served := scenario_world 1;
                 intercepted := <["objects" := PList fleet_objects]>
                                  (<["telemetry" := PList [jdict [("speed", PInt 3)]]]> ∅) |}
              fleet_objects [jdict [("speed", PInt 3)]]) as [E _].
  - reflexivity.
  - reflexivity.
  - discriminate.
  - apply Exists_cons_hd. reflexivity.
  - rewrite E. reflexivity.
Defined.

(** X18: a turn that finds nothing to reconcile (no objects captured, null
    or an empty list) never calls [update]: the cached list, [last_update],
    [refresh_count] and every list object stay as they were, whatever
    telemetry was captured.  It logs in once, and once more when the reload
    after a successful login fails. *)
Theorem empty_capture_keeps_snapshot `{PyLib} (e : poll_env) (s : supervisor) :
  truthy (default (PList []) (intercepted s !! "objects")) = false ->
  let w := served s in
  let w' := served (poll_iteration e s).1 in
  positions (cache w') = positions (cache w)
  /\ last_update (cache w') = last_update (cache w)
  /\ refresh_count (cache w') = refresh_count (cache w)
  /\ heap w' = heap w
  /\ login_count (cache w) < login_count (cache w') <= login_count (cache w) + 2
  /\ (failure (empty_login e) <> None ->
      (poll_iteration e s).2 = false
      /\ login_count (cache w') = login_count (cache w) + 1).
Proof.
  intros F. cbv zeta. unfold poll_iteration.
  rewrite (get_positions_falsy _ F).
  unfold login, sleep_and_refresh, refresh.
  destruct (failure (empty_login e)) as [m1|]; cbn.
  - repeat split; try lia.
  - destruct (failure (reload e)) as [m2|]; cbn.
    + unfold login. destruct (failure (reload_login e)); cbn;
        repeat split; try lia; congruence.
    + repeat split; try lia; congruence.
Qed.

Lemma empty_capture_keeps_snapshot_witness :
  let after :=
    @poll_iteration AsciiLib.lib
       {| clock := 5; raised_text := ""; dump_failure := None;
          empty_login := {| arrived := []; failure := Some "closed" |};
          during_sleep := [];
          reload := {| arrived := []; failure := None |};
          reload_login := {| arrived := []; failure := None |} |}
       {| served := scenario_world 1;
          intercepted := <["telemetry" := scenario_telemetry]> no_capture |} in
  deref (heap (served after.1)) (positions (cache (served after.1)))
  = deref (heap (scenario_world 1)) (positions (cache (scenario_world 1)))
  /\ after.2 = false.
Proof.
  cbv zeta.
  destruct (@empty_capture_keeps_snapshot AsciiLib.lib
              {| clock := 5; raised_text := ""; dump_failure := None;
                 empty_login := {| arrived := []; failure := Some "closed" |};
                 during_sleep := [];
                 reload := {| arrived := []; failure := None |};
                 reload_login := {| arrived := []; failure := None |} |}
              {| served := scenario_world 1;
                 intercepted := <["telemetry" := scenario_telemetry]> no_capture |})
    as (P & _ & _ & Hh & _ & Hf).
  - vm_compute. reflexivity.
  - split; [now rewrite P, Hh|]. apply Hf. discriminate.
Defined.
